(** * CourSys timetable generator: conflict test and combination search

    A shallow embedding of [src/utils/timetableGenerator.tsx]
    ([getDays], [timeToMinutes], [hasConflict], [sectionConflicts],
    [generateTimetables] and its inner [backtrack]) together with the
    properties the specification states about them, and of
    [src/utils/calendarHelper.tsx] ([generateColor],
    [createEventsFromSchedule], [convertScheduleToEvents],
    [generateHiddenDays], [formatTime]) with properties read off the code.

    Conventions of the embedding.
    - A JavaScript string is a [string] (a sequence of code units).
    - A JavaScript number produced by [parseInt] and the arithmetic of
      [timeToMinutes] is a [number]: [NaN] or an exact integer.  Doubles
      are exact on integers below 2^53, so the two agree on every digit run
      of at most 15 characters; longer runs are outside the modelled range.
    - A thrown [TypeError] is the [TypeError] branch of [result]; the code
      throws exactly when a time string has no ['-'] (then [end] is
      [undefined] and [end.slice] fails).
    - [maxTimetables] is an integer ([Z]): the specification's contract
      for the limit is an integer count. *)

From Stdlib Require Import List Bool Arith ZArith Lia String Ascii Sorted.
From Stdlib Require DecimalString.
Import ListNotations.

Local Open Scope string_scope.
Local Open Scope Z_scope.
Local Open Scope list_scope.

(** ** Exceptions *)

Inductive result (A : Type) : Type :=
| Ok (a : A)
| TypeError.
Arguments Ok {A} a.
Arguments TypeError {A}.

Definition bind {A B : Type} (m : result A) (k : A -> result B) : result B :=
  match m with
  | Ok a => k a
  | TypeError => TypeError
  end.

Declare Scope result_scope.
Delimit Scope result_scope with result.
Notation "x <- m ;; k" := (bind m (fun x => k))
  (at level 61, m at next level, right associativity) : result_scope.
Local Open Scope result_scope.

(** ** Numbers *)

Inductive number : Type :=
| NaN
| Num (z : Z).

Definition num_add (a b : number) : number :=
  match a, b with
  | Num x, Num y => Num (x + y)
  | _, _ => NaN
  end.

Definition num_mul (a b : number) : number :=
  match a, b with
  | Num x, Num y => Num (x * y)
  | _, _ => NaN
  end.

(** [a <= b] on numbers: false as soon as one side is [NaN]. *)
Definition num_le (a b : number) : bool :=
  match a, b with
  | Num x, Num y => x <=? y
  | _, _ => false
  end.

(** ** Strings: [slice], [split] and [parseInt] *)

(** [s.slice(0, n)] *)
Fixpoint slice_to (n : nat) (s : string) : string :=
  match n, s with
  | S n', String c r => String c (slice_to n' r)
  | _, _ => EmptyString
  end.

(** [s.slice(n)] *)
Fixpoint slice_from (n : nat) (s : string) : string :=
  match n, s with
  | S n', String _ r => slice_from n' r
  | _, _ => s
  end.

(** [s.split(sep)] for a one-character separator: never empty. *)
Fixpoint split (sep : ascii) (s : string) : list string :=
  match s with
  | EmptyString => [EmptyString]
  | String c r =>
      if Ascii.eqb c sep then EmptyString :: split sep r
      else match split sep r with
           | p :: ps => String c p :: ps
           | [] => [String c EmptyString]
           end
  end.

(** White space skipped by [parseInt], among the code units below 256. *)
Definition isWhiteSpace (c : ascii) : bool :=
  let n := nat_of_ascii c in
  (Nat.leb 9 n && Nat.leb n 13) || Nat.eqb n 32 || Nat.eqb n 160.

Fixpoint trimStart (s : string) : string :=
  match s with
  | String c r => if isWhiteSpace c then trimStart r else s
  | EmptyString => s
  end.

(** Value of a character as a digit of the given radix (10 or 16). *)
Definition digitValue (radix : Z) (c : ascii) : option Z :=
  let n := Z.of_nat (nat_of_ascii c) in
  if (48 <=? n) && (n <=? 57) then Some (n - 48)
  else if (radix =? 16) && (97 <=? n) && (n <=? 102) then Some (n - 87)
  else if (radix =? 16) && (65 <=? n) && (n <=? 70) then Some (n - 55)
  else None.

(** Longest prefix of digits; [None] when it is empty. *)
Fixpoint parseDigits (radix : Z) (s : string) (acc : option Z) : option Z :=
  match s with
  | String c r =>
      match digitValue radix c with
      | Some d =>
          parseDigits radix r
            (Some (match acc with Some a => a * radix + d | None => d end))
      | None => acc
      end
  | EmptyString => acc
  end.

(** [parseInt(s)] with no radix argument. *)
Definition parseInt (s : string) : number :=
  let s1 := trimStart s in
  let '(sign, s2) :=
    match s1 with
    | String "-" r => (-1, r)
    | String "+" r => (1, r)
    | _ => (1, s1)
    end in
  let '(radix, s3) :=
    match s2 with
    | String "0" (String x r) =>
        if Ascii.eqb x "x" || Ascii.eqb x "X" then (16, r) else (10, s2)
    | _ => (10, s2)
    end in
  match parseDigits radix s3 None with
  | Some m => Num (sign * m)
  | None => NaN
  end.

(** ** Data model *)

(** [interface Schedule]: one row of a section's schedule.  The file
    [types/Section] that the generator imports is not among the sources;
    the fields are those the course browser page declares for the same
    data. *)
Record Schedule : Type := mkSchedule {
  sch_type : string;
  sch_days : string;
  sch_time : string;
  sch_start : string;
  sch_end : string;
  sch_room : string;
  sch_instructor : string;
  sch_id : string
}.

(** [interface Section]: one offering of a course (the record is called
    [SectionRec] here, [Section] being a command of the prover). *)
Record SectionRec : Type := mkSection {
  sec_RP : string;
  sec_abbreviated_title : string;
  sec_course_code : string;
  sec_credits : Z;
  sec_crn : Z;
  sec_id : string;
  sec_section : string;
  sec_subject : string;
  sec_term : Z;
  sec_year : Z;
  sec_seats : string;
  sec_waitlist : string;
  schedule : list Schedule
}.

(** Modelled from the spec: the [Course] type of [types/Course], whose
    declaration is not among the sources.  The specification gives it a
    subject, a course code and the ordered candidate sections; the code
    reads [sections] only. *)
Record Course : Type := mkCourse {
  crs_subject : string;
  crs_course_code : string;
  sections : list SectionRec
}.

(** The object returned by [timeToMinutes]. *)
Record TimeRange : Type := mkTimeRange {
  tr_start : number;
  tr_end : number
}.

(** ** The conflict detector *)

(** [getDays]: the indices (0 = Monday) of the characters other than
    ['-'], in increasing order. *)
Fixpoint getDays_from (i : nat) (dayStr : string) : list nat :=
  match dayStr with
  | EmptyString => []
  | String c r =>
      if Ascii.eqb c "-" then getDays_from (S i) r
      else i :: getDays_from (S i) r
  end.

Definition getDays (dayStr : string) : list nat := getDays_from 0 dayStr.

(** Minutes from midnight of one ["HHMM"] piece. *)
Definition minutesOf (piece : string) : number :=
  num_add (num_mul (parseInt (slice_to 2 piece)) (Num 60))
          (parseInt (slice_from 2 piece)).

(** [timeToMinutes]: the destructuring [[start, end] = time.split('-')]
    leaves [end] undefined when there is no ['-'], and [end.slice]
    then throws. *)
Definition timeToMinutes (time : string) : result TimeRange :=
  match split "-" time with
  | start :: end_ :: _ =>
      Ok {| tr_start := minutesOf start; tr_end := minutesOf end_ |}
  | _ => TypeError
  end.

(** [Array.prototype.includes] on day numbers. *)
Definition includes (day : nat) (days : list nat) : bool :=
  existsb (Nat.eqb day) days.

Definition hasConflict (schedule1 schedule2 : Schedule) : result bool :=
  let days1 := getDays (sch_days schedule1) in
  let days2 := getDays (sch_days schedule2) in
  time1 <- timeToMinutes (sch_time schedule1) ;;
  time2 <- timeToMinutes (sch_time schedule2) ;;
  let commonDays := filter (fun day => includes day days2) days1 in
  if Nat.eqb (List.length commonDays) 0 then Ok false
  else Ok (negb (num_le (tr_end time1) (tr_start time2)
                 || num_le (tr_end time2) (tr_start time1))).

(** A [for ... of] loop whose body returns [true] from the enclosing
    function as soon as the test succeeds, and [false] after the loop. *)
Fixpoint anyOf {A : Type} (test : A -> result bool) (l : list A) : result bool :=
  match l with
  | [] => Ok false
  | x :: r => b <- test x ;; if b then Ok true else anyOf test r
  end.

Definition sectionConflicts (section : SectionRec)
    (selectedSections : list SectionRec) : result bool :=
  anyOf (fun selected =>
    anyOf (fun schedule1 =>
      anyOf (fun schedule2 => hasConflict schedule1 schedule2)
            (schedule selected))
          (schedule section))
        selectedSections.

(** ** The combination search *)

Definition Timetable : Type := list SectionRec.

(** A [for ... of] loop whose body updates the loop's state and may throw. *)
Definition forEach {A S : Type} (body : A -> S -> result S)
    : list A -> S -> result S :=
  fix go (l : list A) (s : S) : result S :=
    match l with
    | [] => Ok s
    | x :: r => s' <- body x s ;; go r s'
    end.

(** [backtrack(courseIndex, currentTimetable)].  [pending] stands for
    [courses[courseIndex..]]: it is empty exactly when
    [courseIndex === courses.length], and its head is
    [courses[courseIndex]].  The array [timetables] of the enclosing
    closure is threaded through as state.  [currentTimetable.push(section)]
    before the recursive call and [pop()] after it amount to passing the
    extended buffer down; the stored result is the copy
    [[...currentTimetable]], so no result aliases the buffer. *)
Fixpoint backtrack (maxTimetables : Z) (pending : list Course)
    (currentTimetable : Timetable) (timetables : list Timetable)
    : result (list Timetable) :=
  if maxTimetables <=? Z.of_nat (List.length timetables) then Ok timetables
  else
    match pending with
    | [] => Ok (timetables ++ [currentTimetable])
    | course :: later =>
        forEach (fun section timetables =>
                   conflict <- sectionConflicts section currentTimetable ;;
                   if conflict then Ok timetables
                   else backtrack maxTimetables later
                          (currentTimetable ++ [section]) timetables)
                (sections course) timetables
    end.

Definition generateTimetables (courses : list Course) (maxTimetables : Z)
    : result (list Timetable) :=
  backtrack maxTimetables courses [] [].

(** The call without the second argument. *)
Definition generateTimetables_default (courses : list Course)
    : result (list Timetable) :=
  generateTimetables courses 999.

(** ** The search with a log of the candidates it tries

    The same [backtrack], recording every evaluation of
    [sectionConflicts(section, currentTimetable)] in the loop: the
    candidate section and [timetables.length] at that moment. *)

Record Tried : Type := mkTried {
  candidate : SectionRec;
  found : nat
}.

Definition forEach_log {A S : Type} (body : A -> S -> list Tried * result S)
    : list A -> S -> list Tried * result S :=
  fix go (l : list A) (s : S) : list Tried * result S :=
    match l with
    | [] => ([], Ok s)
    | x :: r =>
        match body x s with
        | (log, Ok s') => let '(log', out) := go r s' in (log ++ log', out)
        | (log, TypeError) => (log, TypeError)
        end
    end.

(** The body of the loop over [course.sections]; [descend] is the
    recursive call [backtrack(courseIndex + 1, ...)]. *)
Definition trySection_log
    (descend : Timetable -> list Timetable -> list Tried * result (list Timetable))
    (currentTimetable : Timetable) (section : SectionRec)
    (timetables : list Timetable) : list Tried * result (list Timetable) :=
  let here := mkTried section (List.length timetables) in
  match sectionConflicts section currentTimetable with
  | TypeError => ([here], TypeError)
  | Ok true => ([here], Ok timetables)
  | Ok false =>
      let '(log, out) := descend (currentTimetable ++ [section]) timetables in
      (here :: log, out)
  end.

Fixpoint backtrack_log (maxTimetables : Z) (pending : list Course)
    (currentTimetable : Timetable) (timetables : list Timetable)
    : list Tried * result (list Timetable) :=
  if maxTimetables <=? Z.of_nat (List.length timetables) then ([], Ok timetables)
  else
    match pending with
    | [] => ([], Ok (timetables ++ [currentTimetable]))
    | course :: later =>
        forEach_log
          (trySection_log (backtrack_log maxTimetables later) currentTimetable)
          (sections course) timetables
    end.

Definition generateTimetables_log (courses : list Course) (maxTimetables : Z)
    : list Tried * result (list Timetable) :=
  backtrack_log maxTimetables courses [] [].

(** "Once the accumulated result count reaches the limit no further
    candidate sections are tried": every candidate is tried while fewer
    than [maxTimetables] timetables have been found. *)
Definition halts_at_limit (courses : list Course) (maxTimetables : Z) : Prop :=
  forall e, In e (fst (generateTimetables_log courses maxTimetables)) ->
            Z.of_nat (found e) < maxTimetables.


(** ** Reference definitions, following the specification's words *)

(** "sectionsConflict returns false" for a pair of sections. *)
Definition noConflict (a b : SectionRec) : bool :=
  match sectionConflicts a [b] with
  | Ok false => true
  | _ => false
  end.

(** "For every pair of sections in it": each unordered pair once. *)
Fixpoint conflictFree (tt : Timetable) : bool :=
  match tt with
  | [] => true
  | a :: r => forallb (noConflict a) r && conflictFree r
  end.

(** The full Cartesian product of the per-course section lists: one
    section per course in course order, the combinations listed in
    lexicographic order of the positions chosen, first course first. *)
Fixpoint cartesian (courses : list Course) : list Timetable :=
  match courses with
  | [] => [[]]
  | course :: later =>
      flat_map (fun section => map (cons section) (cartesian later))
               (sections course)
  end.

(** "Brute-force Cartesian enumeration with explicit conflict filtering". *)
Definition bruteForce (courses : list Course) : list Timetable :=
  filter conflictFree (cartesian courses).

(** Input contract of the specification: every time string has its ['-']
    (so that [timeToMinutes] does not throw). *)
Definition time_ok (s : Schedule) : bool :=
  match split "-" (sch_time s) with
  | _ :: _ :: _ => true
  | _ => false
  end.

Definition section_ok (s : SectionRec) : bool := forallb time_ok (schedule s).

Definition courses_ok (courses : list Course) : bool :=
  forallb (fun c => forallb section_ok (sections c)) courses.

(** A weekday slot marked as a meeting in both day patterns. *)
Definition marked (dayStr : string) (i : nat) : Prop :=
  exists c, String.get i dayStr = Some c /\ c <> "-"%char.

Definition sharedDay (a b : Schedule) : Prop :=
  exists i, marked (sch_days a) i /\ marked (sch_days b) i.

(** The test [commonDays.length === 0] of [hasConflict]. *)
Definition noCommonDay (a b : Schedule) : bool :=
  Nat.eqb
    (List.length (filter (fun day => includes day (getDays (sch_days b)))
                         (getDays (sch_days a))))
    0.

(** ** The pruned enumeration, as a pure function

    What the search collects when no limit binds: the complete
    assignments that extend [currentTimetable] through the pending
    courses, a candidate being taken exactly when [sectionConflicts]
    returns [false] for it. *)

Definition accepted (section : SectionRec) (currentTimetable : Timetable)
    : bool :=
  match sectionConflicts section currentTimetable with
  | Ok false => true
  | _ => false
  end.

Fixpoint extensions (pending : list Course) (currentTimetable : Timetable)
    : list Timetable :=
  match pending with
  | [] => [currentTimetable]
  | course :: later =>
      flat_map (fun section =>
                  if accepted section currentTimetable
                  then extensions later (currentTimetable ++ [section])
                  else [])
               (sections course)
  end.

(** Appending new results to [timetables] while the limit allows it. *)
Definition cap (maxTimetables : Z) (timetables new : list Timetable)
    : list Timetable :=
  timetables
  ++ firstn (Z.to_nat (maxTimetables - Z.of_nat (List.length timetables))) new.

(** ** Positions chosen by a timetable

    A combination is determined by the position of the section chosen in
    each course; positions are compared lexicographically, first course
    first. *)

Fixpoint positions (courses : list Course) : list (list nat) :=
  match courses with
  | [] => [[]]
  | course :: later =>
      flat_map (fun i => map (cons i) (positions later))
               (seq 0 (List.length (sections course)))
  end.

(** The sections found at the given positions ([None] when a position is
    out of range or the lengths differ). *)
Fixpoint pick (courses : list Course) (ps : list nat) : option Timetable :=
  match courses, ps with
  | [], [] => Some []
  | course :: later, p :: ps' =>
      match nth_error (sections course) p, pick later ps' with
      | Some s, Some chosen => Some (s :: chosen)
      | _, _ => None
      end
  | _, _ => None
  end.

Inductive lex_lt : list nat -> list nat -> Prop :=
| lex_head (p q : nat) (ps qs : list nat) : (p < q)%nat -> lex_lt (p :: ps) (q :: qs)
| lex_tail (p : nat) (ps qs : list nat) : lex_lt ps qs -> lex_lt (p :: ps) (p :: qs).

(** ** The calendar helper ([src/utils/calendarHelper.tsx]) *)

(** [DAYS_MAP[day]] for a one-character key: [None] is [undefined]
    (Sunday has no entry). *)
Definition DAYS_MAP (day : ascii) : option Z :=
  if Ascii.eqb day "M" then Some 1
  else if Ascii.eqb day "T" then Some 2
  else if Ascii.eqb day "W" then Some 3
  else if Ascii.eqb day "R" then Some 4
  else if Ascii.eqb day "F" then Some 5
  else if Ascii.eqb day "S" then Some 6
  else None.

(** [ToInt32]: the operand of a bit operator, reduced modulo 2^32 into
    the signed range. *)
Definition toInt32 (z : Z) : Z := (z + 2 ^ 31) mod 2 ^ 32 - 2 ^ 31.

(** [a << n] *)
Definition shiftLeft (a n : Z) : Z := toInt32 (Z.shiftl (toInt32 a) n).

(** The loop of [generateColor]:
    [hash = input.charCodeAt(i) + ((hash << 5) - hash)].  The sum and the
    difference are number arithmetic, not wrapped; they stay exact as
    long as the value is below 2^53 (see [hashLoop_bound]). *)
Fixpoint hashLoop (input : string) (hash : Z) : Z :=
  match input with
  | EmptyString => hash
  | String c r =>
      hashLoop r (Z.of_nat (nat_of_ascii c) + (shiftLeft hash 5 - hash))
  end.

(** [hash % 360]: the remainder takes the sign of [hash]. *)
Definition hueOf (subject courseCode : string) : Z :=
  Z.rem (hashLoop (subject ++ courseCode)%string 0) 360.

(** An integer number inside a template literal. *)
Definition numberToString (z : Z) : string :=
  DecimalString.NilZero.string_of_int (Z.to_int z).

Definition generateColor (subject courseCode : string) : string :=
  ("hsl(" ++ numberToString (hueOf subject courseCode) ++ ", "
   ++ numberToString 50 ++ "%, " ++ numberToString 50 ++ "%)")%string.

Definition formatTime (time : string) : string :=
  (slice_to 2 time ++ ":" ++ slice_from 2 time ++ ":00")%string.

Record ExtendedProps : Type := mkExtendedProps {
  xp_instructor : string;
  xp_type : string;
  xp_section : string
}.

(** The event objects; an optional property that was not assigned is
    [None]. *)
Record CalendarEvent : Type := mkCalendarEvent {
  ev_title : string;
  ev_startTime : option string;
  ev_endTime : option string;
  ev_daysOfWeek : list Z;
  ev_backgroundColor : string;
  ev_borderColor : string;
  ev_start : option string;
  ev_end : option string;
  ev_extendedProps : ExtendedProps
}.

(** [schedule.start !== null && schedule.end !== null
     && schedule.start === schedule.end], [None] being [null]. *)
Definition event_is_one_day (start end_ : option string) : bool :=
  match start, end_ with
  | Some a, Some b => String.eqb a b
  | _, _ => false
  end.

(** [if (schedule.start)]: neither [null] nor the empty string. *)
Definition givenDate (date : option string) : option string :=
  match date with
  | Some (String c r) => Some (String c r)
  | _ => None
  end.

(** [event.startTime] and [event.endTime]: left out of a one-day event,
    else [formatTime] of the two pieces of the time string.  [endTime] is
    [None] ([undefined]) when the time string has no ['-'];
    [formatTime(endTime)] then throws. *)
Definition eventTimes (start end_ : option string) (startTime : string)
    (endTime : option string) : result (option string * option string) :=
  if event_is_one_day start end_ then Ok (None, None)
  else
    match endTime with
    | Some e => Ok (Some (formatTime startTime), Some (formatTime e))
    | None => TypeError
    end.

(** The event object once its optional properties are settled. *)
Definition eventWith (start end_ : option string) (schedule : Schedule)
    (section : SectionRec) (times : option string * option string)
    (color : string) (dayNumber : Z) : CalendarEvent :=
  mkCalendarEvent
    (sec_subject section ++ " " ++ sec_course_code section
     ++ String (ascii_of_nat 10) (sch_type schedule))%string
    (fst times) (snd times) [dayNumber] color color
    (givenDate start) (givenDate end_)
    (mkExtendedProps (sch_instructor schedule) (sch_type schedule)
                     (sec_section section)).

(** The body of [days.forEach] in [createEventsFromSchedule], for a day
    that passed the test. *)
Definition eventOn (start end_ : option string) (schedule : Schedule)
    (section : SectionRec) (startTime : string) (endTime : option string)
    (color : string) (dayNumber : Z) : result CalendarEvent :=
  times <- eventTimes start end_ startTime endTime ;;
  Ok (eventWith start end_ schedule section times color dayNumber).

(** [createEventsFromSchedule], written over the dates as the code
    treats them: [schedule.start] and [schedule.end] are tested against
    [null], which the declared string fields of [Schedule] do not hold. *)
Definition createEvents_dated (start end_ : option string)
    (schedule : Schedule) (section : SectionRec)
    : result (list CalendarEvent) :=
  let days := list_ascii_of_string (sch_days schedule) in
  let pieces := split "-" (sch_time schedule) in
  let startTime := hd EmptyString pieces in
  let endTime := nth_error pieces 1 in
  let color := generateColor (sec_subject section) (sec_course_code section) in
  forEach (fun day events =>
             if Ascii.eqb day "-" then Ok events
             else
               match DAYS_MAP day with
               | Some dayNumber =>
                   event <- eventOn start end_ schedule section startTime
                                    endTime color dayNumber ;;
                   Ok (events ++ [event])
               | None => Ok events
               end)
          days [].

Definition createEventsFromSchedule (schedule : Schedule)
    (section : SectionRec) : result (list CalendarEvent) :=
  createEvents_dated (Some (sch_start schedule)) (Some (sch_end schedule))
                     schedule section.

Definition convertScheduleToEvents (sections : list SectionRec)
    : result (list CalendarEvent) :=
  forEach (fun section events =>
             forEach (fun schedule events =>
                        scheduleEvents <-
                          createEventsFromSchedule schedule section ;;
                        Ok (events ++ scheduleEvents))
                     (schedule section) events)
          sections [].

(** [days.includes('S')] *)
Definition includesChar (c : ascii) (s : string) : bool :=
  existsb (Ascii.eqb c) (list_ascii_of_string s).

Definition generateHiddenDays (sections : list SectionRec) : list Z :=
  let hasSaturday :=
    existsb (fun section =>
               existsb (fun schedule => includesChar "S" (sch_days schedule))
                       (schedule section))
            sections in
  if hasSaturday then [0] else [0; 6].

(** ** Vocabulary for the properties of the helper and the generator *)

(** The letter of each weekday slot, Monday first. *)
Definition weekLetters : list ascii :=
  ["M"; "T"; "W"; "R"; "F"; "S"; "U"]%char.

(** A day pattern in the form the data uses: seven slots, each holding
    ['-'] or the letter of its weekday. *)
Fixpoint canonicalFrom (letters : list ascii) (dayStr : string) : Prop :=
  match letters, dayStr with
  | [], EmptyString => True
  | l :: ls, String c r => (c = "-"%char \/ c = l) /\ canonicalFrom ls r
  | _, _ => False
  end.

Definition canonicalDays (dayStr : string) : Prop :=
  canonicalFrom weekLetters dayStr.

Definition isDigit (c : ascii) : bool :=
  let n := nat_of_ascii c in Nat.leb 48 n && Nat.leb n 57.

Definition digitOf (c : ascii) : Z := Z.of_nat (nat_of_ascii c) - 48.

(** The day numbers [DAYS_MAP] gives to the characters of a day pattern,
    in order; characters without an entry give none. *)
Fixpoint dayNumbers (dayStr : string) : list Z :=
  match dayStr with
  | EmptyString => []
  | String c r =>
      match DAYS_MAP c with
      | Some n => n :: dayNumbers r
      | None => dayNumbers r
      end
  end.

(** The base-31 polynomial of the code units, by Horner's rule. *)
Fixpoint horner31 (input : string) (h : Z) : Z :=
  match input with
  | EmptyString => h
  | String c r => horner31 r (31 * h + Z.of_nat (nat_of_ascii c))
  end.

(** The size of the search space: the product of the section counts. *)
Definition combinations (courses : list Course) : nat :=
  fold_right (fun course n => (List.length (sections course) * n)%nat) 1%nat
             courses.

(** Some row of some section has an ['S'] in its day pattern. *)
Definition hasSaturdayRow (sections : list SectionRec) : Prop :=
  exists section row, In section sections /\ In row (schedule section)
                      /\ includesChar "S" (sch_days row) = true.



(** What an event shows of its origin: its day, its two colours, its
    title and the section name among its extended properties. *)
Definition eventFace (e : CalendarEvent)
    : list Z * string * string * string * string :=
  (ev_daysOfWeek e, ev_backgroundColor e, ev_borderColor e, ev_title e,
   xp_section (ev_extendedProps e)).

(** The same for the event the helper is to make of one row of one
    section on day [n]. *)
Definition rowFace (section : SectionRec) (row : Schedule) (n : Z)
    : list Z * string * string * string * string :=
  ([n],
   generateColor (sec_subject section) (sec_course_code section),
   generateColor (sec_subject section) (sec_course_code section),
   (sec_subject section ++ " " ++ sec_course_code section
    ++ String (ascii_of_nat 10) (sch_type row))%string,
   sec_section section).

(** A number that is [NaN] or at least 0. *)
Definition notNegative (n : number) : Prop :=
  match n with
  | NaN => True
  | Num z => 0 <= z
  end.

(** A row that really occupies time: its range decodes to numbers with
    [start < end] and some day is marked. *)
Definition properRow (x : Schedule) : Prop :=
  (exists i, marked (sch_days x) i)
  /\ exists s e, timeToMinutes (sch_time x) = Ok (mkTimeRange (Num s) (Num e))
                 /\ s < e.

(** ** Sample data

    Course A with sections A1 (Mon/Wed 9:00-10:00) and A2 (Mon/Wed
    10:30-11:30), course B with the single section B1 (Mon 9:30-10:30),
    course C with two sections on Tue/Thu, and course E whose only section
    has a lecture on Tuesday and an exam row one instant long (Mon 9:30). *)

Definition entry (type days time : string) : Schedule :=
  mkSchedule type days time "2025-01-08" "2025-04-07" "A101" "TBA" "SCHD-0".

Definition offering (subject code name : string) (rows : list Schedule)
    : SectionRec :=
  mkSection "-" "Sample" code 3 10001 (subject ++ code ++ name)%string name
            subject 10 2025 "5" "0" rows.

Definition lectureRow : Schedule := entry "Lecture" "M-W----" "0900-1000".
Definition labRow : Schedule := entry "Lab" "M------" "1000-1100".

Definition A1 : SectionRec := offering "CPSC" "1150" "001" [lectureRow].
Definition A2 : SectionRec :=
  offering "CPSC" "1150" "002" [entry "Lecture" "M-W----" "1030-1130"].
Definition B1 : SectionRec :=
  offering "MATH" "1171" "001" [entry "Lecture" "M------" "0930-1030"].

Definition courseA : Course := mkCourse "CPSC" "1150" [A1; A2].
Definition courseB : Course := mkCourse "MATH" "1171" [B1].

Definition examRow : Schedule :=
  mkSchedule "Exam" "M------" "0930-0930" "2025-04-14" "2025-04-14" "A101"
             "TBA" "SCHD-1".
Definition otherExamRow : Schedule := entry "Exam" "M---F--" "0930-0930".
Definition E1 : SectionRec :=
  offering "PHYS" "1101" "001"
           [entry "Lecture" "-T-----" "0900-1000"; examRow].
Definition courseE : Course := mkCourse "PHYS" "1101" [E1].

Definition C1 : SectionRec :=
  offering "ENGL" "1123" "001" [entry "Lecture" "-T-R---" "0900-1000"].
Definition C2 : SectionRec :=
  offering "ENGL" "1123" "002" [entry "Lecture" "-T-R---" "1300-1400"].
Definition courseC : Course := mkCourse "ENGL" "1123" [C1; C2].

(** A row whose time string lacks its ['-'], in a course whose first
    section has no row at all. *)
Definition brokenRow : Schedule := entry "Lecture" "M------" "0900".
Definition X1 : SectionRec := offering "HIST" "1116" "001" [].
Definition X2 : SectionRec := offering "HIST" "1116" "002" [brokenRow].
Definition courseX : Course := mkCourse "HIST" "1116" [X1; X2].

(** A day pattern with a stray character and the Sunday letter, and a
    Saturday lab. *)
Definition oddRow : Schedule := entry "Lecture" "M-xRU-S" "0900-1000".
Definition saturdayRow : Schedule := entry "Lab" "-----S-" "1300-1600".
Definition S1 : SectionRec := offering "BIOL" "1115" "001" [saturdayRow].


(** * Properties *)

(** ** Day patterns *)

Lemma marked_nil (i : nat) : ~ marked EmptyString i.
Proof. intros [c [H _]]. destruct i; discriminate H. Qed.

Lemma marked_head (c : ascii) (r : string) :
  marked (String c r) 0 <-> c <> "-"%char.
Proof.
  unfold marked; simpl. split.
  - intros [c' [H Hc]]. injection H as ->. exact Hc.
  - intros Hc. exists c. split; [reflexivity | exact Hc].
Qed.

Lemma marked_tail (c : ascii) (r : string) (i : nat) :
  marked (String c r) (S i) <-> marked r i.
Proof. unfold marked; simpl. reflexivity. Qed.

Lemma getDays_from_In (dayStr : string) :
  forall k i, In i (getDays_from k dayStr)
              <-> (k <= i)%nat /\ marked dayStr (i - k).
Proof.
  induction dayStr as [| c r IH]; intros k i; simpl.
  - split; [contradiction | intros [_ H]; exact (marked_nil _ H)].
  - assert (Hstep : (S k <= i)%nat /\ marked r (i - S k)
                    <-> (k < i)%nat /\ marked (String c r) (i - k)).
    { split; intros [Hle Hm]; (split; [lia |]).
      - replace (i - k)%nat with (S (i - S k)) by lia.
        apply marked_tail; exact Hm.
      - replace (i - k)%nat with (S (i - S k)) in Hm by lia.
        apply marked_tail in Hm; exact Hm. }
    destruct (Ascii.eqb_spec c "-"%char) as [-> | Hc].
    + rewrite IH, Hstep. split.
      * intros [Hlt Hm]. split; [lia | exact Hm].
      * intros [Hle Hm]. split; [| exact Hm].
        destruct (Nat.eq_dec i k) as [-> | Hne]; [| lia].
        rewrite Nat.sub_diag in Hm. apply marked_head in Hm. congruence.
    + simpl. rewrite IH, Hstep. split.
      * intros [<- | [Hlt Hm]].
        -- split; [lia |]. rewrite Nat.sub_diag. apply marked_head; exact Hc.
        -- split; [lia | exact Hm].
      * intros [Hle Hm].
        destruct (Nat.eq_dec k i) as [-> | Hne]; [left; reflexivity |].
        right. split; [lia | exact Hm].
Qed.

Lemma getDays_In (dayStr : string) (i : nat) :
  In i (getDays dayStr) <-> marked dayStr i.
Proof.
  unfold getDays. rewrite getDays_from_In, Nat.sub_0_r.
  split; [intros [_ H]; exact H | intros H; split; [lia | exact H]].
Qed.

Lemma includes_In (day : nat) (days : list nat) :
  includes day days = true <-> In day days.
Proof.
  unfold includes. rewrite existsb_exists. split.
  - intros [d [Hin Heq]]. apply Nat.eqb_eq in Heq. subst d. exact Hin.
  - intros Hin. exists day. split; [exact Hin | apply Nat.eqb_refl].
Qed.

Lemma noCommonDay_false (a b : Schedule) :
  noCommonDay a b = false <-> sharedDay a b.
Proof.
  unfold noCommonDay, sharedDay.
  set (l := filter _ _).
  assert (Hmem : forall d, In d l <-> marked (sch_days a) d /\ marked (sch_days b) d).
  { intros d. unfold l. rewrite filter_In, includes_In, !getDays_In. tauto. }
  split.
  - intros H. destruct l as [| d l'] eqn:E; [discriminate H |].
    exists d. apply Hmem. left; reflexivity.
  - intros [d Hd]. apply Hmem in Hd.
    destruct l as [| d' l']; [contradiction | reflexivity].
Qed.

Lemma noCommonDay_sym (a b : Schedule) : noCommonDay a b = noCommonDay b a.
Proof.
  destruct (noCommonDay a b) eqn:E1, (noCommonDay b a) eqn:E2; try reflexivity.
  - apply noCommonDay_false in E2. destruct E2 as [d [H1 H2]].
    assert (H : noCommonDay a b = false)
      by (apply noCommonDay_false; exists d; tauto).
    congruence.
  - apply noCommonDay_false in E1. destruct E1 as [d [H1 H2]].
    assert (H : noCommonDay b a = false)
      by (apply noCommonDay_false; exists d; tauto).
    congruence.
Qed.

(** ** The entry-level test *)

Lemma hasConflict_decoded (a b : Schedule) (ta tb : TimeRange) :
  timeToMinutes (sch_time a) = Ok ta ->
  timeToMinutes (sch_time b) = Ok tb ->
  hasConflict a b
  = Ok (if noCommonDay a b then false
        else negb (num_le (tr_end ta) (tr_start tb)
                   || num_le (tr_end tb) (tr_start ta))).
Proof.
  intros Ha Hb. unfold hasConflict, noCommonDay. rewrite Ha, Hb. simpl.
  destruct (Nat.eqb _ 0); reflexivity.
Qed.

Lemma hasConflict_sym (a b : Schedule) : hasConflict a b = hasConflict b a.
Proof.
  destruct (timeToMinutes (sch_time a)) as [ta |] eqn:Ha;
    destruct (timeToMinutes (sch_time b)) as [tb |] eqn:Hb.
  - rewrite (hasConflict_decoded a b ta tb Ha Hb).
    rewrite (hasConflict_decoded b a tb ta Hb Ha).
    rewrite (noCommonDay_sym a b), orb_comm. reflexivity.
  - unfold hasConflict. rewrite Ha, Hb. reflexivity.
  - unfold hasConflict. rewrite Ha, Hb. reflexivity.
  - unfold hasConflict. rewrite Ha, Hb. reflexivity.
Qed.

Lemma timeToMinutes_ok (s : Schedule) :
  time_ok s = true -> exists t, timeToMinutes (sch_time s) = Ok t.
Proof.
  unfold time_ok, timeToMinutes.
  destruct (split "-" (sch_time s)) as [| p [| q r]]; try discriminate.
  intros _. eexists; reflexivity.
Qed.

Lemma hasConflict_total (a b : Schedule) :
  time_ok a = true -> time_ok b = true -> exists r, hasConflict a b = Ok r.
Proof.
  intros Ha Hb.
  destruct (timeToMinutes_ok a Ha) as [ta Hta].
  destruct (timeToMinutes_ok b Hb) as [tb Htb].
  rewrite (hasConflict_decoded a b ta tb Hta Htb). eexists; reflexivity.
Qed.

(** C2.  For two entries whose time strings decode to minute ranges
    [sa, ea] and [sb, eb], [hasConflict] returns, and it returns [true]
    exactly when some weekday slot is marked in both day patterns and
    [sa < eb] and [sb < ea].  In particular it returns [false] when no
    day is shared, whatever the times, and when one entry ends at the
    minute the other starts. *)
Theorem hasConflict_iff (a b : Schedule) (sa ea sb eb : Z) :
  timeToMinutes (sch_time a) = Ok (mkTimeRange (Num sa) (Num ea)) ->
  timeToMinutes (sch_time b) = Ok (mkTimeRange (Num sb) (Num eb)) ->
  (exists r, hasConflict a b = Ok r)
  /\ (hasConflict a b = Ok true <-> sharedDay a b /\ sa < eb /\ sb < ea)
  /\ (~ sharedDay a b -> hasConflict a b = Ok false)
  /\ (ea = sb \/ eb = sa -> hasConflict a b = Ok false).
Proof.
  intros Ha Hb. rewrite (hasConflict_decoded a b _ _ Ha Hb). simpl.
  destruct (noCommonDay a b) eqn:Hd.
  - assert (Hns : ~ sharedDay a b).
    { intros Hs. apply noCommonDay_false in Hs. congruence. }
    split; [eexists; reflexivity |].
    split; [split; [discriminate | intros [Hs _]; contradiction] |].
    split; intros _; reflexivity.
  - apply noCommonDay_false in Hd.
    split; [eexists; reflexivity |].
    split; [| split].
    + split.
      * intros H. injection H as H.
        apply negb_true_iff, orb_false_iff in H. destruct H as [H1 H2].
        apply Z.leb_gt in H1, H2. auto.
      * intros [_ [H1 H2]]. f_equal. apply negb_true_iff, orb_false_iff.
        split; apply Z.leb_gt; assumption.
    + intros Hns. contradiction.
    + intros [-> | ->]; f_equal; apply negb_false_iff, orb_true_iff;
        [left | right]; apply Z.leb_refl.
Qed.

Lemma hasConflict_iff_witness :
  timeToMinutes (sch_time lectureRow) = Ok (mkTimeRange (Num 540) (Num 600))
  /\ timeToMinutes (sch_time labRow) = Ok (mkTimeRange (Num 600) (Num 660))
  /\ (hasConflict lectureRow labRow = Ok true
      <-> sharedDay lectureRow labRow /\ 540 < 660 /\ 600 < 600)
  /\ hasConflict lectureRow labRow = Ok false.
Proof.
  pose proof (hasConflict_iff lectureRow labRow 540 600 600 660
                eq_refl eq_refl) as [_ [Hiff [_ Hback]]].
  split; [reflexivity |]. split; [reflexivity |].
  split; [exact Hiff |].
  apply Hback. left; reflexivity.
Defined.

(** Without a shared day the answer is never [true], whatever the time
    strings are. *)
Lemma no_shared_day_no_conflict (a b : Schedule) :
  ~ sharedDay a b -> hasConflict a b <> Ok true.
Proof.
  intros Hns H.
  destruct (timeToMinutes (sch_time a)) as [ta |] eqn:Ha;
    destruct (timeToMinutes (sch_time b)) as [tb |] eqn:Hb;
    try (unfold hasConflict in H; rewrite Ha, ?Hb in H; discriminate H).
  rewrite (hasConflict_decoded a b ta tb Ha Hb) in H.
  destruct (noCommonDay a b) eqn:Hd; [discriminate H |].
  apply noCommonDay_false in Hd. contradiction.
Qed.

(** The boundary pair of the specification: 9:00-10:00 against
    10:00-11:00 on a shared day does not conflict, 9:00-10:01 does. *)
Example day_overlap_boundary :
  hasConflict (entry "Lecture" "M------" "0900-1000")
              (entry "Lecture" "M------" "1000-1100") = Ok false
  /\ hasConflict (entry "Lecture" "M------" "0900-1001")
                 (entry "Lecture" "M------" "1000-1100") = Ok true
  /\ hasConflict (entry "Lecture" "M------" "0900-1100")
                 (entry "Lecture" "-T-----" "0900-1100") = Ok false.
Proof. repeat split. Qed.

(** Outside the input contract: a time string without digits decodes to
    [NaN], every comparison with it is false, and the negated test then
    answers [true] on a shared day; a time string without ['-'] throws. *)
Example hasConflict_undecodable :
  timeToMinutes "-" = Ok (mkTimeRange NaN NaN)
  /\ hasConflict (entry "Lecture" "M------" "-")
                 (entry "Lecture" "M------" "0900-1000") = Ok true
  /\ hasConflict (entry "Lecture" "M------" "0900")
                 (entry "Lecture" "-T-----" "0900-1000") = TypeError.
Proof. repeat split. Qed.

(** C9.  An entry whose decoded range is the single instant [t] does not
    conflict with itself, nor with any entry whose range is the same
    instant, whether or not they share a day: [t <= t] makes the negated
    test false. *)
Theorem single_instant_no_conflict (a b : Schedule) (t : Z) :
  timeToMinutes (sch_time a) = Ok (mkTimeRange (Num t) (Num t)) ->
  timeToMinutes (sch_time b) = Ok (mkTimeRange (Num t) (Num t)) ->
  hasConflict a a = Ok false /\ hasConflict a b = Ok false.
Proof.
  intros Ha Hb.
  rewrite (hasConflict_decoded a a _ _ Ha Ha).
  rewrite (hasConflict_decoded a b _ _ Ha Hb). simpl.
  rewrite Z.leb_refl. simpl.
  split; [destruct (noCommonDay a a) | destruct (noCommonDay a b)];
    reflexivity.
Qed.

Lemma single_instant_no_conflict_witness :
  timeToMinutes (sch_time examRow) = Ok (mkTimeRange (Num 570) (Num 570))
  /\ timeToMinutes (sch_time otherExamRow)
     = Ok (mkTimeRange (Num 570) (Num 570))
  /\ sharedDay examRow otherExamRow
  /\ hasConflict examRow examRow = Ok false
  /\ hasConflict examRow otherExamRow = Ok false.
Proof.
  split; [reflexivity |]. split; [reflexivity |].
  split.
  - exists 0%nat. split; exists "M"%char; (split; [reflexivity | discriminate]).
  - apply (single_instant_no_conflict examRow otherExamRow 570); reflexivity.
Defined.

(** ** The section-level test *)

Lemma anyOf_false {A : Type} (test : A -> result bool) (l : list A) :
  anyOf test l = Ok false <-> forall x, In x l -> test x = Ok false.
Proof.
  induction l as [| x r IH]; simpl.
  - split; [intros _ y [] | reflexivity].
  - destruct (test x) as [[|] |] eqn:Hx; simpl.
    + split; [discriminate |].
      intros H. specialize (H x (or_introl eq_refl)). congruence.
    + rewrite IH. split.
      * intros H y [<- | Hy]; [exact Hx | exact (H y Hy)].
      * intros H y Hy. apply H. right; exact Hy.
    + split; [discriminate |].
      intros H. specialize (H x (or_introl eq_refl)). congruence.
Qed.

Lemma anyOf_total {A : Type} (test : A -> result bool) (l : list A) :
  (forall x, In x l -> exists b, test x = Ok b) ->
  exists b, anyOf test l = Ok b.
Proof.
  induction l as [| x r IH]; simpl; intros H.
  - eexists; reflexivity.
  - destruct (H x (or_introl eq_refl)) as [[|] Hx]; rewrite Hx; simpl.
    + eexists; reflexivity.
    + apply IH. intros y Hy. apply H. right; exact Hy.
Qed.

Lemma sectionConflicts_false (section : SectionRec) (selected : list SectionRec) :
  sectionConflicts section selected = Ok false
  <-> forall other, In other selected ->
      forall x y, In x (schedule section) -> In y (schedule other) ->
                  hasConflict x y = Ok false.
Proof.
  unfold sectionConflicts. rewrite anyOf_false. split.
  - intros H other Hin x y Hx Hy.
    specialize (H other Hin). rewrite anyOf_false in H.
    specialize (H x Hx). rewrite anyOf_false in H. exact (H y Hy).
  - intros H other Hin. apply anyOf_false. intros x Hx.
    apply anyOf_false. intros y Hy. exact (H other Hin x y Hx Hy).
Qed.

Lemma sectionConflicts_total (section : SectionRec) (selected : list SectionRec) :
  section_ok section = true ->
  forallb section_ok selected = true ->
  exists b, sectionConflicts section selected = Ok b.
Proof.
  intros Hs Hsel. unfold section_ok in Hs.
  rewrite forallb_forall in Hs, Hsel.
  unfold sectionConflicts.
  apply anyOf_total. intros other Hin.
  apply anyOf_total. intros x Hx.
  apply anyOf_total. intros y Hy.
  apply hasConflict_total; [exact (Hs x Hx) |].
  specialize (Hsel other Hin). unfold section_ok in Hsel.
  rewrite forallb_forall in Hsel. exact (Hsel y Hy).
Qed.

Lemma noConflict_true (a b : SectionRec) :
  noConflict a b = true
  <-> forall x y, In x (schedule a) -> In y (schedule b) ->
                  hasConflict x y = Ok false.
Proof.
  unfold noConflict. split.
  - intros H x y Hx Hy.
    destruct (sectionConflicts a [b]) as [[|] |] eqn:E; try discriminate.
    rewrite sectionConflicts_false in E.
    exact (E b (or_introl eq_refl) x y Hx Hy).
  - intros H.
    assert (E : sectionConflicts a [b] = Ok false).
    { apply sectionConflicts_false. intros other [<- | []] x y Hx Hy.
      exact (H x y Hx Hy). }
    rewrite E. reflexivity.
Qed.

Lemma noConflict_sym (a b : SectionRec) : noConflict a b = noConflict b a.
Proof.
  apply eq_true_iff_eq. rewrite !noConflict_true.
  split; intros H x y Hx Hy; rewrite hasConflict_sym; exact (H y x Hy Hx).
Qed.

Lemma accepted_forallb (section : SectionRec) (current : Timetable) :
  accepted section current = forallb (noConflict section) current.
Proof.
  apply eq_true_iff_eq. rewrite forallb_forall. unfold accepted. split.
  - intros H other Hin. apply noConflict_true. intros x y Hx Hy.
    destruct (sectionConflicts section current) as [[|] |] eqn:E;
      try discriminate.
    rewrite sectionConflicts_false in E. exact (E other Hin x y Hx Hy).
  - intros H.
    assert (E : sectionConflicts section current = Ok false).
    { apply sectionConflicts_false. intros other Hin.
      apply noConflict_true. exact (H other Hin). }
    rewrite E. reflexivity.
Qed.

(** ** Conflict-free sequences *)

Lemma forallb_pointwise {A : Type} (f g : A -> bool) (l : list A) :
  (forall x, f x = g x) -> forallb f l = forallb g l.
Proof.
  intros H. induction l as [| x r IH]; simpl; [reflexivity |].
  rewrite H, IH. reflexivity.
Qed.

Lemma conflictFree_app (l1 l2 : Timetable) :
  conflictFree (l1 ++ l2)
  = conflictFree l1 && conflictFree l2
    && forallb (fun a => forallb (noConflict a) l2) l1.
Proof.
  induction l1 as [| a l1 IH]; simpl.
  - rewrite andb_true_r. reflexivity.
  - rewrite forallb_app, IH.
    destruct (forallb (noConflict a) l1), (forallb (noConflict a) l2),
      (conflictFree l1), (conflictFree l2); reflexivity.
Qed.

Lemma conflictFree_snoc (current : Timetable) (section : SectionRec) :
  conflictFree (current ++ [section])
  = conflictFree current && accepted section current.
Proof.
  rewrite conflictFree_app, accepted_forallb. simpl.
  rewrite andb_true_r. f_equal.
  apply forallb_pointwise. intros a. rewrite andb_true_r. apply noConflict_sym.
Qed.

Lemma conflictFree_middle (current later : Timetable) (section : SectionRec) :
  conflictFree (current ++ section :: later) = true ->
  accepted section current = true.
Proof.
  rewrite conflictFree_app, accepted_forallb, !andb_true_iff.
  intros [_ H]. rewrite forallb_forall in *. intros a Ha.
  specialize (H a Ha). simpl in H. apply andb_true_iff in H.
  rewrite noConflict_sym. exact (proj1 H).
Qed.

Lemma conflictFree_pairs (t : Timetable) :
  conflictFree t = true ->
  forall i j a b, i <> j ->
    nth_error t i = Some a -> nth_error t j = Some b ->
    noConflict a b = true.
Proof.
  intros Hcf.
  assert (Hlt : forall t, conflictFree t = true ->
            forall i j a b, (i < j)%nat ->
              nth_error t i = Some a -> nth_error t j = Some b ->
              noConflict a b = true).
  { clear t Hcf. induction t as [| h t IH]; intros Hcf i j a b Hij Hi Hj.
    - destruct i; discriminate Hi.
    - simpl in Hcf. apply andb_true_iff in Hcf. destruct Hcf as [Hh Ht].
      destruct j as [| j]; [lia |]. simpl in Hj.
      destruct i as [| i]; simpl in Hi.
      + injection Hi as <-. rewrite forallb_forall in Hh.
        apply Hh. exact (nth_error_In _ _ Hj).
      + apply (IH Ht i j); [lia | assumption | assumption]. }
  intros i j a b Hne Hi Hj.
  destruct (Nat.lt_ge_cases i j) as [Hij | Hji].
  - exact (Hlt t Hcf i j a b Hij Hi Hj).
  - rewrite noConflict_sym. apply (Hlt t Hcf j i b a); [lia | assumption | assumption].
Qed.

(** ** The search against the pruned enumeration *)

Section Search.

Variable L : Z.

Lemma cap_nil (timetables : list Timetable) : cap L timetables [] = timetables.
Proof. unfold cap. rewrite firstn_nil, app_nil_r. reflexivity. Qed.

Lemma cap_full (timetables new : list Timetable) :
  L <= Z.of_nat (List.length timetables) -> cap L timetables new = timetables.
Proof.
  intros H. unfold cap.
  replace (Z.to_nat (L - Z.of_nat (List.length timetables))) with 0%nat by lia.
  simpl. apply app_nil_r.
Qed.

Lemma cap_one (timetables : list Timetable) (t : Timetable) :
  Z.of_nat (List.length timetables) < L ->
  cap L timetables [t] = timetables ++ [t].
Proof.
  intros H. unfold cap.
  destruct (Z.to_nat (L - Z.of_nat (List.length timetables))) eqn:E; [lia |].
  simpl. rewrite firstn_nil. reflexivity.
Qed.

Lemma cap_cap (timetables new1 new2 : list Timetable) :
  cap L (cap L timetables new1) new2 = cap L timetables (new1 ++ new2).
Proof.
  unfold cap. rewrite <- app_assoc. f_equal.
  rewrite firstn_app. f_equal.
  rewrite length_app, length_firstn. f_equal. lia.
Qed.

Lemma cap_length (timetables new : list Timetable) :
  0 <= L ->
  Z.of_nat (List.length timetables) <= L ->
  Z.of_nat (List.length (cap L timetables new)) <= L.
Proof.
  intros H0 H. unfold cap. rewrite length_app, length_firstn. lia.
Qed.

(** The three ways through the body of [backtrack]. *)

Lemma backtrack_stop (pending : list Course) (current : Timetable)
    (timetables : list Timetable) :
  L <= Z.of_nat (List.length timetables) ->
  backtrack L pending current timetables = Ok timetables.
Proof.
  intros H. apply Z.leb_le in H.
  destruct pending; simpl; rewrite H; reflexivity.
Qed.

Lemma backtrack_leaf (current : Timetable) (timetables : list Timetable) :
  Z.of_nat (List.length timetables) < L ->
  backtrack L [] current timetables = Ok (timetables ++ [current]).
Proof.
  intros H. apply Z.leb_gt in H. simpl. rewrite H. reflexivity.
Qed.

Lemma backtrack_node (course : Course) (later : list Course)
    (current : Timetable) (timetables : list Timetable) :
  Z.of_nat (List.length timetables) < L ->
  backtrack L (course :: later) current timetables
  = forEach (fun section timetables =>
               conflict <- sectionConflicts section current ;;
               if conflict then Ok timetables
               else backtrack L later (current ++ [section]) timetables)
            (sections course) timetables.
Proof.
  intros H. apply Z.leb_gt in H. simpl. rewrite H. reflexivity.
Qed.

(** Case analysis on the guard [timetables.length >= maxTimetables]. *)
Ltac on_guard timetables Hge Hlt :=
  destruct (Z.le_gt_cases L (Z.of_nat (List.length timetables))) as [Hge | Hlt];
  [ rewrite backtrack_stop in * by exact Hge
  | first [ rewrite backtrack_leaf in * by exact Hlt
          | rewrite backtrack_node in * by exact Hlt ] ].

Lemma forEach_cap
    (body : SectionRec -> list Timetable -> result (list Timetable))
    (g : SectionRec -> list Timetable) (secs : list SectionRec) :
  (forall s timetables r, In s secs -> body s timetables = Ok r ->
                          r = cap L timetables (g s)) ->
  forall timetables r, forEach body secs timetables = Ok r ->
                       r = cap L timetables (flat_map g secs).
Proof.
  induction secs as [| s secs IH]; intros Hbody timetables r H.
  - simpl in H. injection H as <-. simpl. symmetry; apply cap_nil.
  - simpl in H. destruct (body s timetables) as [mid |] eqn:Hs; [| discriminate].
    simpl in H.
    apply (Hbody s timetables mid (or_introl eq_refl)) in Hs. subst mid.
    apply IH in H.
    + simpl. rewrite <- cap_cap. exact H.
    + intros s' t' r' Hin. apply Hbody. right; exact Hin.
Qed.

Lemma forEach_total {A S : Type} (body : A -> S -> result S) (l : list A) :
  (forall x s, In x l -> exists s', body x s = Ok s') ->
  forall s, exists s', forEach body l s = Ok s'.
Proof.
  induction l as [| x r IH]; intros H s; simpl.
  - eexists; reflexivity.
  - destruct (H x s (or_introl eq_refl)) as [mid Hmid]. rewrite Hmid. simpl.
    apply IH. intros y s0 Hy. apply H. right; exact Hy.
Qed.

(** What a completed call of [backtrack] leaves in [timetables]. *)
Lemma backtrack_Ok (pending : list Course) :
  forall current timetables r,
    backtrack L pending current timetables = Ok r ->
    r = cap L timetables (extensions pending current).
Proof.
  induction pending as [| course later IH]; intros current timetables r H;
    on_guard timetables Hge Hlt.
  - injection H as <-. symmetry; apply cap_full; exact Hge.
  - injection H as <-. symmetry; apply cap_one; exact Hlt.
  - injection H as <-. symmetry; apply cap_full; exact Hge.
  - simpl extensions. revert H. apply forEach_cap. clear timetables r Hlt.
    intros s timetables r _ Hs. unfold accepted.
    destruct (sectionConflicts s current) as [[|] |]; simpl in Hs.
    + injection Hs as <-. symmetry; apply cap_nil.
    + apply IH; exact Hs.
    + discriminate Hs.
Qed.

(** With every time string well formed the search does not throw. *)
Lemma backtrack_total (pending : list Course) :
  courses_ok pending = true ->
  forall current timetables,
    forallb section_ok current = true ->
    exists r, backtrack L pending current timetables = Ok r.
Proof.
  induction pending as [| course later IH]; intros Hok current timetables Hcur;
    on_guard timetables Hge Hlt; try (eexists; reflexivity).
  simpl in Hok. apply andb_true_iff in Hok. destruct Hok as [Hc Hlater].
  rewrite forallb_forall in Hc.
  apply forEach_total. intros s t Hin.
  destruct (sectionConflicts_total s current (Hc s Hin) Hcur) as [[|] Hb];
    rewrite Hb; simpl.
  - eexists; reflexivity.
  - apply IH; [exact Hlater |].
    rewrite forallb_app, Hcur. simpl. rewrite (Hc s Hin). reflexivity.
Qed.

End Search.

(** ** The pruned enumeration against the filtered product *)

Lemma filter_flat_map {A B : Type} (P : B -> bool) (f : A -> list B) (l : list A) :
  filter P (flat_map f l) = flat_map (fun x => filter P (f x)) l.
Proof.
  induction l as [| x r IH]; simpl; [reflexivity |].
  rewrite filter_app, IH. reflexivity.
Qed.

Lemma map_flat_map {A B C : Type} (g : B -> C) (f : A -> list B) (l : list A) :
  map g (flat_map f l) = flat_map (fun x => map g (f x)) l.
Proof.
  induction l as [| x r IH]; simpl; [reflexivity |].
  rewrite map_app, IH. reflexivity.
Qed.

Lemma filter_none {A : Type} (P : A -> bool) (l : list A) :
  (forall x, In x l -> P x = false) -> filter P l = [].
Proof.
  induction l as [| x r IH]; simpl; intros H; [reflexivity |].
  rewrite (H x (or_introl eq_refl)). apply IH.
  intros y Hy. apply H. right; exact Hy.
Qed.

(** Pruning a prefix that already conflicts loses nothing: the pruned
    enumeration lists the conflict-free members of the product, in the
    product's order. *)
Lemma extensions_filter (pending : list Course) :
  forall current,
    conflictFree current = true ->
    extensions pending current
    = map (app current)
          (filter (fun t => conflictFree (current ++ t)) (cartesian pending)).
Proof.
  induction pending as [| course later IH]; intros current Hcur; simpl.
  - rewrite app_nil_r, Hcur. simpl. rewrite app_nil_r. reflexivity.
  - rewrite filter_flat_map, map_flat_map.
    apply flat_map_ext. intros s.
    rewrite filter_map_swap, map_map.
    destruct (accepted s current) eqn:Hacc.
    + rewrite IH by (rewrite conflictFree_snoc, Hcur, Hacc; reflexivity).
      assert (Hfil : filter (fun t => conflictFree ((current ++ [s]) ++ t))
                            (cartesian later)
                     = filter (fun t => conflictFree (current ++ s :: t))
                              (cartesian later)).
      { apply filter_ext. intros t. rewrite <- app_assoc. reflexivity. }
      rewrite Hfil. apply map_ext. intros t. rewrite <- app_assoc. reflexivity.
    + rewrite filter_none; [reflexivity |].
      intros t _. destruct (conflictFree (current ++ s :: t)) eqn:E;
        [| reflexivity].
      apply conflictFree_middle in E. congruence.
Qed.

Lemma extensions_bruteForce (courses : list Course) :
  extensions courses [] = bruteForce courses.
Proof.
  rewrite extensions_filter by reflexivity. unfold bruteForce. simpl.
  rewrite map_id. reflexivity.
Qed.

(** The search returns the first [maxTimetables] conflict-free members of
    the product, whenever it returns. *)
Lemma generateTimetables_Ok (courses : list Course) (L : Z)
    (timetables : list Timetable) :
  generateTimetables courses L = Ok timetables ->
  timetables = firstn (Z.to_nat L) (bruteForce courses).
Proof.
  unfold generateTimetables. intros H. apply backtrack_Ok in H.
  rewrite extensions_bruteForce in H. unfold cap in H. simpl in H.
  rewrite Z.sub_0_r in H. exact H.
Qed.

Lemma generateTimetables_total (courses : list Course) (L : Z) :
  courses_ok courses = true ->
  exists timetables, generateTimetables courses L = Ok timetables.
Proof.
  intros H. unfold generateTimetables.
  apply backtrack_total; [exact H | reflexivity].
Qed.

Lemma generateTimetables_spec (courses : list Course) (L : Z) :
  courses_ok courses = true ->
  generateTimetables courses L = Ok (firstn (Z.to_nat L) (bruteForce courses)).
Proof.
  intros H. destruct (generateTimetables_total courses L H) as [r Hr].
  rewrite Hr. f_equal. apply generateTimetables_Ok. exact Hr.
Qed.

Lemma In_firstn {A : Type} (n : nat) (l : list A) (x : A) :
  In x (firstn n l) -> In x l.
Proof.
  revert l. induction n as [| n IH]; intros [| y l]; simpl; try contradiction.
  intros [<- | H]; [left; reflexivity | right; apply IH; exact H].
Qed.

(** ** Results of the search *)

Lemma returned_pairs_noConflict (courses : list Course) (L : Z)
    (timetables : list Timetable) :
  generateTimetables courses L = Ok timetables ->
  forall t, In t timetables ->
  forall i j a b, i <> j ->
    nth_error t i = Some a -> nth_error t j = Some b ->
    noConflict a b = true.
Proof.
  intros Hgen t Hin i j a b Hne Hi Hj.
  apply generateTimetables_Ok in Hgen. subst timetables.
  apply In_firstn in Hin. unfold bruteForce in Hin.
  apply filter_In in Hin. destruct Hin as [_ Hcf].
  exact (conflictFree_pairs t Hcf i j a b Hne Hi Hj).
Qed.

(** C1.  Whenever [generateTimetables] returns, every timetable of its
    result is pairwise conflict-free: for any two sections at distinct
    positions of it, [sectionConflicts] of one against the other returns
    [false]. *)
Theorem timetables_conflict_free (courses : list Course) (L : Z)
    (timetables : list Timetable) :
  generateTimetables courses L = Ok timetables ->
  forall t, In t timetables ->
  forall i j a b, i <> j ->
    nth_error t i = Some a -> nth_error t j = Some b ->
    sectionConflicts a [b] = Ok false.
Proof.
  intros Hgen t Hin i j a b Hne Hi Hj.
  pose proof (returned_pairs_noConflict courses L timetables Hgen t Hin
                i j a b Hne Hi Hj) as Hnc.
  unfold noConflict in Hnc.
  destruct (sectionConflicts a [b]) as [[|] |]; congruence.
Qed.

Lemma timetables_conflict_free_witness :
  generateTimetables [courseA; courseB] 10 = Ok [[A2; B1]]
  /\ sectionConflicts A2 [B1] = Ok false
  /\ sectionConflicts B1 [A2] = Ok false.
Proof.
  split; [reflexivity |]. split.
  - apply (timetables_conflict_free [courseA; courseB] 10 [[A2; B1]]
             eq_refl [A2; B1] (or_introl eq_refl) 0%nat 1%nat A2 B1);
      [discriminate | reflexivity | reflexivity].
  - reflexivity.
Defined.

(** Moving A2 half an hour earlier (Mon/Wed 10:00-11:00) makes it overlap
    B1 between 10:00 and 10:30, and no combination is left. *)
Example overlapping_half_hour :
  generateTimetables
    [mkCourse "CPSC" "1150"
       [A1; offering "CPSC" "1150" "002" [entry "Lecture" "M-W----" "1000-1100"]];
     courseB] 10
  = Ok [].
Proof. reflexivity. Qed.

(** C3.  When the limit is at least the number of conflict-free
    combinations, the backtracking search returns exactly the brute-force
    list: the Cartesian product of the per-course section lists filtered
    by the pairwise test, with the same members in the same order, hence
    the same count.  Whatever the search returns is that list, and with
    well-formed time strings it does return. *)
Theorem backtracking_matches_bruteForce (courses : list Course) (L : Z) :
  Z.of_nat (List.length (bruteForce courses)) <= L ->
  (forall timetables,
      generateTimetables courses L = Ok timetables ->
      timetables = bruteForce courses
      /\ List.length timetables = List.length (bruteForce courses)
      /\ (forall t, In t timetables <-> In t (bruteForce courses)))
  /\ (courses_ok courses = true ->
      generateTimetables courses L = Ok (bruteForce courses)).
Proof.
  intros HL.
  assert (Hall : firstn (Z.to_nat L) (bruteForce courses) = bruteForce courses)
    by (apply firstn_all2; lia).
  split.
  - intros timetables H. apply generateTimetables_Ok in H.
    rewrite Hall in H. subst timetables.
    split; [reflexivity |]. split; [reflexivity | tauto].
  - intros Hok. rewrite (generateTimetables_spec courses L Hok), Hall.
    reflexivity.
Qed.

Lemma backtracking_matches_bruteForce_witness :
  Z.of_nat (List.length (bruteForce [courseA; courseB; courseE])) <= 5
  /\ courses_ok [courseA; courseB; courseE] = true
  /\ generateTimetables [courseA; courseB; courseE] 5
     = Ok (bruteForce [courseA; courseB; courseE])
  /\ bruteForce [courseA; courseB; courseE] = [[A2; B1; E1]].
Proof.
  assert (HL : Z.of_nat (List.length (bruteForce [courseA; courseB; courseE])) <= 5)
    by (vm_compute; discriminate).
  split; [exact HL |]. split; [reflexivity |]. split.
  - exact (proj2 (backtracking_matches_bruteForce
                    [courseA; courseB; courseE] 5 HL) eq_refl).
  - reflexivity.
Defined.

(** C4.  For a limit [L >= 0] the returned list never has more than [L]
    timetables, and with [L = 0] it is empty.  The limit wins over
    completeness: the result is the first [L] of the conflict-free
    combinations, however many there are. *)
Theorem limit_respected (courses : list Course) (L : Z)
    (timetables : list Timetable) :
  0 <= L ->
  generateTimetables courses L = Ok timetables ->
  Z.of_nat (List.length timetables) <= L
  /\ (L = 0 -> timetables = [])
  /\ timetables = firstn (Z.to_nat L) (bruteForce courses).
Proof.
  intros HL H.
  assert (Hlen : Z.of_nat (List.length timetables) <= L).
  { unfold generateTimetables in H. apply backtrack_Ok in H.
    subst timetables. apply cap_length; simpl; lia. }
  split; [exact Hlen |]. split.
  - intros ->. destruct timetables; [reflexivity | simpl in Hlen; lia].
  - apply generateTimetables_Ok. exact H.
Qed.

(** Two combinations are valid for course A alone; a limit of 1 keeps
    the first. *)
Lemma limit_respected_witness :
  0 <= 1
  /\ generateTimetables [courseA] 1 = Ok [[A1]]
  /\ bruteForce [courseA] = [[A1]; [A2]]
  /\ Z.of_nat (List.length [[A1]]) <= 1.
Proof.
  split; [lia |]. split; [reflexivity |]. split; [reflexivity |].
  refine (proj1 (limit_respected [courseA] 1 [[A1]] _ eq_refl)). lia.
Defined.

(** C6.  With no course and a limit of at least 1 the result is exactly
    one timetable, the empty sequence. *)
Theorem empty_course_list (L : Z) :
  1 <= L -> generateTimetables [] L = Ok [[]].
Proof.
  intros HL. unfold generateTimetables.
  rewrite backtrack_leaf by (simpl; lia). reflexivity.
Qed.

Lemma empty_course_list_witness :
  1 <= 1 /\ generateTimetables [] 1 = Ok [[]].
Proof.
  split; [lia |]. apply (empty_course_list 1). lia.
Defined.

Example empty_course_list_default : generateTimetables_default [] = Ok [[]].
Proof. reflexivity. Qed.


(** Every member of the product has one section per course, so a result
    is never a partial assignment. *)
Lemma cartesian_length (courses : list Course) :
  forall t, In t (cartesian courses) -> List.length t = List.length courses.
Proof.
  induction courses as [| course later IH]; simpl; intros t Hin.
  - destruct Hin as [<- | []]. reflexivity.
  - apply in_flat_map in Hin. destruct Hin as [s [_ Hin]].
    apply in_map_iff in Hin. destruct Hin as [t' [<- Hin]].
    simpl. f_equal. apply IH; exact Hin.
Qed.

Lemma timetables_complete (courses : list Course) (L : Z)
    (timetables : list Timetable) :
  generateTimetables courses L = Ok timetables ->
  forall t, In t timetables -> List.length t = List.length courses.
Proof.
  intros H t Hin. apply generateTimetables_Ok in H. subst timetables.
  apply In_firstn in Hin. unfold bruteForce in Hin.
  apply filter_In in Hin. apply cartesian_length. exact (proj1 Hin).
Qed.

(** ** Order of the results *)

Lemma Forall2_map_both {A B A' B' : Type} (R : A -> B -> Prop)
    (R' : A' -> B' -> Prop) (f : A -> A') (g : B -> B') (l1 : list A)
    (l2 : list B) :
  (forall x y, R x y -> R' (f x) (g y)) ->
  Forall2 R l1 l2 -> Forall2 R' (map f l1) (map g l2).
Proof.
  intros Hfg H. induction H as [| x y l1 l2 Hxy _ IH]; simpl; constructor.
  - apply Hfg; exact Hxy.
  - exact IH.
Qed.

(** The product lists the combinations position by position. *)
Lemma cartesian_positions (courses : list Course) :
  Forall2 (fun ps t => pick courses ps = Some t)
          (positions courses) (cartesian courses).
Proof.
  induction courses as [| course later IH]; simpl.
  - constructor; [reflexivity | constructor].
  - assert (Hgen : forall rest pre,
              sections course = pre ++ rest ->
              Forall2 (fun ps t => pick (course :: later) ps = Some t)
                (flat_map (fun i => map (cons i) (positions later))
                          (seq (List.length pre) (List.length rest)))
                (flat_map (fun s => map (cons s) (cartesian later)) rest)).
    { induction rest as [| s rest IHrest]; intros pre Hsec; simpl.
      - constructor.
      - apply Forall2_app.
        + apply (Forall2_map_both (fun ps t => pick later ps = Some t));
            [| exact IH].
          intros ps t Hpick. simpl. rewrite Hsec, Hpick.
          rewrite nth_error_app2 by lia. rewrite Nat.sub_diag. reflexivity.
        + specialize (IHrest (pre ++ [s])).
          rewrite length_app, Nat.add_1_r in IHrest. apply IHrest.
          rewrite <- app_assoc. exact Hsec. }
    exact (Hgen (sections course) [] eq_refl).
Qed.

Lemma StronglySorted_app {A : Type} (lt : A -> A -> Prop) (l1 l2 : list A) :
  StronglySorted lt l1 -> StronglySorted lt l2 ->
  (forall x y, In x l1 -> In y l2 -> lt x y) ->
  StronglySorted lt (l1 ++ l2).
Proof.
  intros H1 H2 H12. induction H1 as [| x l1 Hs IH Hx]; simpl.
  - exact H2.
  - constructor.
    + apply IH. intros a b Ha Hb. apply H12; [right; exact Ha | exact Hb].
    + apply Forall_app. split; [exact Hx |].
      apply Forall_forall. intros y Hy. apply H12; [left; reflexivity | exact Hy].
Qed.

Lemma StronglySorted_cons_all (p : nat) (l : list (list nat)) :
  StronglySorted lex_lt l -> StronglySorted lex_lt (map (cons p) l).
Proof.
  intros H. induction H as [| x l Hs IH Hx]; simpl; constructor.
  - exact IH.
  - apply Forall_forall. intros y Hy. apply in_map_iff in Hy.
    destruct Hy as [y' [<- Hy']]. apply lex_tail.
    rewrite Forall_forall in Hx. exact (Hx y' Hy').
Qed.

Lemma positions_sorted (courses : list Course) :
  StronglySorted lex_lt (positions courses).
Proof.
  induction courses as [| course later IH]; simpl.
  - constructor; constructor.
  - generalize (List.length (sections course)) as n. generalize 0%nat as k.
    intros k n. revert k.
    induction n as [| n IHn]; intros k; simpl.
    + constructor.
    + apply StronglySorted_app.
      * apply StronglySorted_cons_all; exact IH.
      * apply IHn.
      * intros x y Hx Hy.
        apply in_map_iff in Hx. destruct Hx as [x' [<- _]].
        apply in_flat_map in Hy. destruct Hy as [i [Hi Hy]].
        apply in_map_iff in Hy. destruct Hy as [y' [<- _]].
        apply in_seq in Hi. apply lex_head. lia.
Qed.

(** Filtering and truncating a list keep the order of what remains. *)
Lemma Forall2_filter_sorted {A B : Type} (R : A -> B -> Prop)
    (lt : A -> A -> Prop) (P : B -> bool) (l1 : list A) (l2 : list B) :
  Forall2 R l1 l2 -> StronglySorted lt l1 ->
  exists l1', Forall2 R l1' (filter P l2) /\ StronglySorted lt l1'
              /\ incl l1' l1.
Proof.
  intros H. induction H as [| x y l1 l2 Hxy _ IH]; intros Hs; simpl.
  - exists []. split; [constructor |]. split; [constructor | apply incl_refl].
  - apply StronglySorted_inv in Hs. destruct Hs as [Hs Hx].
    destruct (IH Hs) as [l1' [HF [Hs' Hincl]]].
    destruct (P y).
    + exists (x :: l1'). split; [constructor; assumption |]. split.
      * constructor; [exact Hs' |].
        rewrite Forall_forall in *. intros z Hz. apply Hx, Hincl, Hz.
      * intros z [<- | Hz]; [left; reflexivity | right; apply Hincl, Hz].
    + exists l1'. split; [exact HF |]. split; [exact Hs' |].
      intros z Hz. right. apply Hincl, Hz.
Qed.

Lemma Forall2_firstn_sorted {A B : Type} (R : A -> B -> Prop)
    (lt : A -> A -> Prop) (n : nat) (l1 : list A) (l2 : list B) :
  Forall2 R l1 l2 -> StronglySorted lt l1 ->
  Forall2 R (firstn n l1) (firstn n l2) /\ StronglySorted lt (firstn n l1).
Proof.
  intros H. revert n.
  induction H as [| x y l1 l2 Hxy _ IH]; intros n Hs.
  - rewrite !firstn_nil. split; constructor.
  - destruct n as [| n]; simpl; [split; constructor |].
    apply StronglySorted_inv in Hs. destruct Hs as [Hs Hx].
    destruct (IH n Hs) as [HF Hs'].
    split; [constructor; assumption |].
    constructor; [exact Hs' |].
    rewrite Forall_forall in *. intros z Hz. apply Hx.
    exact (In_firstn n l1 z Hz).
Qed.

(** C8.  The output is a function of the course list and the limit
    alone: it is the list of the first [maxTimetables] conflict-free
    combinations of the product.  The combinations appear in the
    lexicographic order of the positions chosen in each course's section
    list, first course first: the results are the picks of a strictly
    increasing sequence of position vectors.  With well-formed time
    strings the search returns that list. *)
Theorem results_in_lexicographic_order (courses : list Course) (L : Z) :
  (forall timetables,
      generateTimetables courses L = Ok timetables ->
      timetables = firstn (Z.to_nat L) (bruteForce courses)
      /\ exists chosen,
           Forall2 (fun ps t => pick courses ps = Some t) chosen timetables
           /\ StronglySorted lex_lt chosen)
  /\ (forall first second,
         generateTimetables courses L = Ok first ->
         generateTimetables courses L = Ok second -> first = second)
  /\ (courses_ok courses = true ->
      generateTimetables courses L
      = Ok (firstn (Z.to_nat L) (bruteForce courses))).
Proof.
  split; [| split].
  - intros timetables H. apply generateTimetables_Ok in H.
    split; [exact H |]. subst timetables. unfold bruteForce.
    destruct (Forall2_filter_sorted _ lex_lt conflictFree _ _
                (cartesian_positions courses) (positions_sorted courses))
      as [kept [HF [Hs _]]].
    exists (firstn (Z.to_nat L) kept).
    exact (Forall2_firstn_sorted _ lex_lt (Z.to_nat L) _ _ HF Hs).
  - intros first second H1 H2. congruence.
  - apply generateTimetables_spec.
Qed.

Lemma results_in_lexicographic_order_witness :
  courses_ok [courseA; courseC] = true
  /\ generateTimetables [courseA; courseC] 3
     = Ok [[A1; C1]; [A1; C2]; [A2; C1]]
  /\ pick [courseA; courseC] [0; 0]%nat = Some [A1; C1]
  /\ pick [courseA; courseC] [0; 1]%nat = Some [A1; C2]
  /\ pick [courseA; courseC] [1; 0]%nat = Some [A2; C1].
Proof.
  split; [reflexivity |]. split.
  - exact (proj2 (proj2 (results_in_lexicographic_order
                           [courseA; courseC] 3)) eq_refl).
  - repeat split.
Defined.

(** ** Entries one instant long *)

Lemma sectionConflicts_true (a b : SectionRec) (x y : Schedule) :
  section_ok a = true -> section_ok b = true ->
  In x (schedule a) -> In y (schedule b) ->
  hasConflict x y = Ok true ->
  sectionConflicts a [b] = Ok true.
Proof.
  intros Ha Hb Hx Hy Hxy.
  destruct (sectionConflicts_total a [b] Ha) as [[|] Hr].
  - simpl. rewrite Hb. reflexivity.
  - exact Hr.
  - rewrite sectionConflicts_false in Hr.
    specialize (Hr b (or_introl eq_refl) x y Hx Hy). congruence.
Qed.

(** C10.  [sectionConflicts] tests every row of one section against
    every row of the other, rows one instant long included: it returns
    [false] only if [hasConflict] returns [false] on every pair.  A row
    [x] of section [a] whose range is the instant [t] conflicts with a
    row [y] of section [b] that shares a marked day and whose range
    [s, e] has [s < t < e]; then [sectionConflicts] does not return
    [false] for the two sections in either order (it returns [true] when
    their time strings are well formed), and no timetable returned by
    [generateTimetables] holds both sections. *)
Theorem single_instant_entries_checked (a b : SectionRec) (x y : Schedule)
    (t s e : Z) :
  In x (schedule a) -> In y (schedule b) ->
  timeToMinutes (sch_time x) = Ok (mkTimeRange (Num t) (Num t)) ->
  timeToMinutes (sch_time y) = Ok (mkTimeRange (Num s) (Num e)) ->
  sharedDay x y ->
  s < t < e ->
  (sectionConflicts a [b] = Ok false
   <-> forall x' y', In x' (schedule a) -> In y' (schedule b) ->
                     hasConflict x' y' = Ok false)
  /\ hasConflict x y = Ok true
  /\ hasConflict y x = Ok true
  /\ sectionConflicts a [b] <> Ok false
  /\ sectionConflicts b [a] <> Ok false
  /\ (section_ok a = true -> section_ok b = true ->
      sectionConflicts a [b] = Ok true /\ sectionConflicts b [a] = Ok true)
  /\ (forall courses L timetables chosen i j,
         generateTimetables courses L = Ok timetables ->
         In chosen timetables -> i <> j ->
         nth_error chosen i = Some a -> nth_error chosen j = Some b -> False).
Proof.
  intros Hx Hy Htx Hty Hshared Hin.
  assert (Hxy : hasConflict x y = Ok true).
  { rewrite (hasConflict_decoded x y _ _ Htx Hty). simpl.
    apply noCommonDay_false in Hshared. rewrite Hshared. f_equal.
    apply negb_true_iff, orb_false_iff. split; apply Z.leb_gt; lia. }
  assert (Hyx : hasConflict y x = Ok true)
    by (rewrite hasConflict_sym; exact Hxy).
  assert (Hab : sectionConflicts a [b] <> Ok false).
  { intros H. rewrite sectionConflicts_false in H.
    specialize (H b (or_introl eq_refl) x y Hx Hy). congruence. }
  assert (Hba : sectionConflicts b [a] <> Ok false).
  { intros H. rewrite sectionConflicts_false in H.
    specialize (H a (or_introl eq_refl) y x Hy Hx). congruence. }
  split.
  { rewrite sectionConflicts_false. split.
    - intros H x' y' Hx' Hy'. exact (H b (or_introl eq_refl) x' y' Hx' Hy').
    - intros H other [<- | []] x' y' Hx' Hy'. exact (H x' y' Hx' Hy'). }
  repeat (split; [assumption |]).
  split.
  - intros Ha Hb. split.
    + exact (sectionConflicts_true a b x y Ha Hb Hx Hy Hxy).
    + exact (sectionConflicts_true b a y x Hb Ha Hy Hx Hyx).
  - intros courses L timetables chosen i j Hgen Hch Hne Hi Hj.
    pose proof (returned_pairs_noConflict courses L timetables Hgen chosen Hch
                  i j a b Hne Hi Hj) as Hnc.
    unfold noConflict in Hnc.
    destruct (sectionConflicts a [b]) as [[|] |]; congruence.
Qed.

Lemma single_instant_entries_checked_witness :
  In examRow (schedule E1) /\ In lectureRow (schedule A1)
  /\ timeToMinutes (sch_time examRow) = Ok (mkTimeRange (Num 570) (Num 570))
  /\ timeToMinutes (sch_time lectureRow) = Ok (mkTimeRange (Num 540) (Num 600))
  /\ sharedDay examRow lectureRow
  /\ 540 < 570 < 600
  /\ hasConflict examRow lectureRow = Ok true
  /\ sectionConflicts E1 [A1] = Ok true
  /\ generateTimetables [courseA; courseE] 10 = Ok [[A2; E1]].
Proof.
  assert (Hx : In examRow (schedule E1)) by (right; left; reflexivity).
  assert (Hy : In lectureRow (schedule A1)) by (left; reflexivity).
  assert (Hs : sharedDay examRow lectureRow).
  { exists 0%nat. split; exists "M"%char; (split; [reflexivity | discriminate]). }
  assert (Ht : 540 < 570 < 600) by lia.
  pose proof (single_instant_entries_checked E1 A1 examRow lectureRow
                570 540 600 Hx Hy eq_refl eq_refl Hs Ht) as H.
  split; [exact Hx |]. split; [exact Hy |].
  split; [reflexivity |]. split; [reflexivity |].
  split; [exact Hs |]. split; [exact Ht |].
  split; [exact (proj1 (proj2 H)) |].
  split; [| reflexivity].
  exact (proj1 (proj1 (proj2 (proj2 (proj2 (proj2 (proj2 H)))))
                 eq_refl eq_refl)).
Defined.

(** ** The search and the limit *)

Lemma forEach_log_result {A S : Type}
    (body_log : A -> S -> list Tried * result S) (body : A -> S -> result S)
    (l : list A) :
  (forall x s, snd (body_log x s) = body x s) ->
  forall s, snd (forEach_log body_log l s) = forEach body l s.
Proof.
  intros Hbody. induction l as [| x r IH]; intros s; simpl; [reflexivity |].
  rewrite <- Hbody.
  destruct (body_log x s) as [log [s' |]]; simpl; [| reflexivity].
  rewrite <- IH. destruct (forEach_log body_log r s'). reflexivity.
Qed.

(** Dropping the log gives back the search. *)
Lemma backtrack_log_result (L : Z) (pending : list Course) :
  forall current timetables,
    snd (backtrack_log L pending current timetables)
    = backtrack L pending current timetables.
Proof.
  induction pending as [| course later IH]; intros current timetables; simpl;
    destruct (L <=? Z.of_nat (List.length timetables)); try reflexivity.
  apply forEach_log_result. intros s tts. unfold trySection_log.
  destruct (sectionConflicts s current) as [[|] |]; simpl; try reflexivity.
  rewrite <- IH. destruct (backtrack_log L later (current ++ [s]) tts).
  reflexivity.
Qed.

Lemma generateTimetables_log_result (courses : list Course) (L : Z) :
  snd (generateTimetables_log courses L) = generateTimetables courses L.
Proof. apply backtrack_log_result. Qed.

(** C5, as stated, fails: with a limit of 1 the first timetable
    [[C1; A1]] is found, and the loops over the sections of both courses
    then go on to try A2 and C2. *)
Lemma search_continues_after_limit : ~ halts_at_limit [courseC; courseA] 1.
Proof.
  intros H.
  assert (Hlog : fst (generateTimetables_log [courseC; courseA] 1)
                 = [mkTried C1 0; mkTried A1 0; mkTried A2 1; mkTried C2 1])
    by reflexivity.
  specialize (H (mkTried A2 1)). rewrite Hlog in H.
  assert (Hlt : Z.of_nat (found (mkTried A2 1)) < 1)
    by (apply H; right; right; left; reflexivity).
  simpl in Hlt. lia.
Qed.

(** The same on the search itself: with a limit of 1 the timetable
    [[B1; X1]] is stored first, and the test of the next candidate X2
    against B1 still runs, and throws on its malformed time string. *)
Example limit_reached_then_throws :
  generateTimetables [courseB; courseX] 1 = TypeError
  /\ generateTimetables [courseB; mkCourse "HIST" "1116" [X1]] 1
     = Ok [[B1; X1]].
Proof. split; reflexivity. Qed.

(** C5, amended.  Once [timetables] holds [maxTimetables] results, a call
    of [backtrack] returns at once: it tries no candidate and leaves
    [timetables] as it is.  A loop of an enclosing level is not
    interrupted: with well-formed time strings it runs [sectionConflicts]
    once for each remaining candidate, and adds nothing. *)
Theorem limit_stops_descent (L : Z) (timetables : list Timetable) :
  L <= Z.of_nat (List.length timetables) ->
  (forall pending current,
      backtrack_log L pending current timetables = ([], Ok timetables))
  /\ (forall later current remaining,
         forallb section_ok current = true ->
         forallb section_ok remaining = true ->
         forEach_log (trySection_log (backtrack_log L later) current)
                     remaining timetables
         = (map (fun s => mkTried s (List.length timetables)) remaining,
            Ok timetables)).
Proof.
  intros HL.
  assert (Hstop : forall pending current,
             backtrack_log L pending current timetables = ([], Ok timetables)).
  { intros pending current. apply Z.leb_le in HL.
    destruct pending; simpl; rewrite HL; reflexivity. }
  split; [exact Hstop |].
  intros later current remaining Hcur.
  induction remaining as [| s r IH]; intros Hrem; simpl; [reflexivity |].
  simpl in Hrem. apply andb_true_iff in Hrem. destruct Hrem as [Hs Hr].
  unfold trySection_log at 1.
  destruct (sectionConflicts_total s current Hs Hcur) as [[|] Hb]; rewrite Hb.
  - rewrite (IH Hr). reflexivity.
  - rewrite Hstop, (IH Hr). reflexivity.
Qed.

Lemma limit_stops_descent_witness :
  1 <= Z.of_nat (List.length [[C1; A1]])
  /\ backtrack_log 1 [] [C1; A2] [[C1; A1]] = ([], Ok [[C1; A1]])
  /\ forEach_log (trySection_log (backtrack_log 1 []) [C1]) [A2] [[C1; A1]]
     = ([mkTried A2 1], Ok [[C1; A1]]).
Proof.
  assert (HL : 1 <= Z.of_nat (List.length [[C1; A1]])) by (simpl; lia).
  pose proof (limit_stops_descent 1 [[C1; A1]] HL) as [H1 H2].
  split; [exact HL |]. split.
  - exact (H1 [] [C1; A2]).
  - exact (H2 [] [C1] [A2] eq_refl eq_refl).
Defined.

(** * Further properties of the generator *)

(** ** [getDays] *)

Lemma getDays_from_sorted (dayStr : string) :
  forall k, StronglySorted lt (getDays_from k dayStr)
            /\ Forall (fun i => (k <= i < k + String.length dayStr)%nat)
                      (getDays_from k dayStr).
Proof.
  induction dayStr as [| c r IH]; intros k; simpl.
  - split; constructor.
  - destruct (IH (S k)) as [Hs Hb].
    assert (Hb' : Forall (fun i => (k <= i < k + S (String.length r))%nat)
                         (getDays_from (S k) r)).
    { eapply Forall_impl; [| exact Hb]. simpl. intros i Hi. lia. }
    destruct (Ascii.eqb c "-"); [split; assumption |].
    split.
    + constructor; [exact Hs |].
      eapply Forall_impl; [| exact Hb]. simpl. intros i Hi. lia.
    + constructor; [lia | exact Hb'].
Qed.

(** X1.  [getDays] lists, in strictly increasing order, exactly the
    positions of the day string that hold a character other than ['-'];
    every position listed is inside the string. *)
Theorem getDays_positions (dayStr : string) :
  StronglySorted lt (getDays dayStr)
  /\ (forall i, In i (getDays dayStr) <-> marked dayStr i)
  /\ (forall i, In i (getDays dayStr) -> (i < String.length dayStr)%nat).
Proof.
  destruct (getDays_from_sorted dayStr 0) as [Hs Hb].
  split; [exact Hs |]. split; [apply getDays_In |].
  intros i Hi. rewrite Forall_forall in Hb. exact (proj2 (Hb i Hi)).
Qed.

(** ** [timeToMinutes] *)

Lemma split_nonempty (sep : ascii) (s : string) : split sep s <> [].
Proof.
  destruct s as [| c r]; simpl; [discriminate |].
  destruct (Ascii.eqb c sep); [discriminate |].
  destruct (split sep r); discriminate.
Qed.

Lemma split_single (sep : ascii) (s : string) :
  (exists p, split sep s = [p]) <-> includesChar sep s = false.
Proof.
  unfold includesChar.
  induction s as [| c r IH]; simpl.
  - split; [reflexivity | intros _; eexists; reflexivity].
  - rewrite (Ascii.eqb_sym sep c).
    destruct (Ascii.eqb c sep); simpl.
    + split; [| discriminate].
      intros [p Hp]. injection Hp as _ Hr. exfalso.
      exact (split_nonempty sep r Hr).
    + rewrite <- IH. destruct (split sep r) as [| q qs] eqn:E.
      * exfalso. exact (split_nonempty sep r E).
      * split; intros [p Hp]; injection Hp as _ ->; eexists; reflexivity.
Qed.

(** X2.  [timeToMinutes] throws exactly on the time strings that hold no
    ['-']; on every other string it returns a range, whatever the pieces
    are. *)
Theorem timeToMinutes_throws_iff (time : string) :
  (timeToMinutes time = TypeError <-> includesChar "-" time = false)
  /\ (includesChar "-" time = true -> exists t, timeToMinutes time = Ok t).
Proof.
  assert (H : timeToMinutes time = TypeError <-> includesChar "-" time = false).
  { rewrite <- split_single. unfold timeToMinutes.
    destruct (split "-" time) as [| p [| q r]] eqn:E.
    - exfalso. exact (split_nonempty _ _ E).
    - split; [intros _; eexists; reflexivity | reflexivity].
    - split; [discriminate | intros [p' Hp']; discriminate]. }
  split; [exact H |].
  intros Hin. destruct (timeToMinutes time) as [t |].
  - eexists; reflexivity.
  - rewrite (proj1 H eq_refl) in Hin. discriminate Hin.
Qed.

Lemma timeToMinutes_throws_iff_witness :
  includesChar "-" "TBA-TBA" = true
  /\ exists t, timeToMinutes "TBA-TBA" = Ok t.
Proof.
  split; [reflexivity |].
  exact (proj2 (timeToMinutes_throws_iff "TBA-TBA") eq_refl).
Defined.

Lemma isDigit_cases (c : ascii) :
  isDigit c = true ->
  In c ["0"; "1"; "2"; "3"; "4"; "5"; "6"; "7"; "8"; "9"]%char.
Proof.
  destruct c as [[|] [|] [|] [|] [|] [|] [|] [|]]; intros H;
    try discriminate H; simpl; tauto.
Qed.

Lemma minutesOf_digits (a b c d : ascii) :
  isDigit a = true -> isDigit b = true ->
  isDigit c = true -> isDigit d = true ->
  minutesOf (String a (String b (String c (String d EmptyString))))
  = Num ((10 * digitOf a + digitOf b) * 60 + (10 * digitOf c + digitOf d)).
Proof.
  intros Ha Hb Hc Hd.
  assert (Hpair : forall x y, isDigit x = true -> isDigit y = true ->
            parseInt (String x (String y EmptyString))
            = Num (10 * digitOf x + digitOf y)).
  { intros x y Hx Hy. apply isDigit_cases in Hx, Hy. simpl in Hx, Hy.
    repeat (destruct Hx as [<- | Hx]); try contradiction;
      repeat (destruct Hy as [<- | Hy]); try contradiction; reflexivity. }
  unfold minutesOf. simpl slice_to. simpl slice_from.
  rewrite (Hpair a b Ha Hb), (Hpair c d Hc Hd). reflexivity.
Qed.

Lemma split_no_sep (sep : ascii) (s : string) :
  includesChar sep s = false -> split sep s = [s].
Proof.
  unfold includesChar. induction s as [| c r IH]; simpl; [reflexivity |].
  rewrite (Ascii.eqb_sym sep c).
  destruct (Ascii.eqb c sep); simpl; [discriminate |].
  intros H. rewrite (IH H). reflexivity.
Qed.

Lemma split_app_sep (sep : ascii) (s1 s2 : string) :
  includesChar sep s1 = false ->
  split sep (s1 ++ String sep s2)%string = s1 :: split sep s2.
Proof.
  unfold includesChar. induction s1 as [| c r IH]; simpl.
  - rewrite Ascii.eqb_refl. reflexivity.
  - rewrite (Ascii.eqb_sym sep c).
    destruct (Ascii.eqb c sep); simpl; [discriminate |].
    intros H. rewrite (IH H). reflexivity.
Qed.

(** X3.  On a time of the form ["HHMM-HHMM"] (eight digits) the result
    is [60 * HH + MM] for each half; no range check is made, so ["9999"]
    decodes to [99 * 60 + 99]. *)
Theorem timeToMinutes_digits (a b c d e f g h : ascii) :
  isDigit a = true -> isDigit b = true ->
  isDigit c = true -> isDigit d = true ->
  isDigit e = true -> isDigit f = true ->
  isDigit g = true -> isDigit h = true ->
  timeToMinutes
    (String a (String b (String c (String d (String "-"
       (String e (String f (String g (String h EmptyString)))))))))
  = Ok (mkTimeRange
          (Num ((10 * digitOf a + digitOf b) * 60 + (10 * digitOf c + digitOf d)))
          (Num ((10 * digitOf e + digitOf f) * 60 + (10 * digitOf g + digitOf h)))).
Proof.
  intros Ha Hb Hc Hd He Hf Hg Hh.
  set (p := String a (String b (String c (String d EmptyString)))).
  set (q := String e (String f (String g (String h EmptyString)))).
  assert (Hnd : forall x, isDigit x = true -> Ascii.eqb "-" x = false).
  { intros x Hx. apply isDigit_cases in Hx. simpl in Hx.
    repeat (destruct Hx as [<- | Hx]); try contradiction; reflexivity. }
  assert (Hp : includesChar "-" p = false).
  { unfold includesChar, p. cbn [existsb list_ascii_of_string].
    rewrite (Hnd a Ha), (Hnd b Hb), (Hnd c Hc), (Hnd d Hd). reflexivity. }
  assert (Hq : includesChar "-" q = false).
  { unfold includesChar, q. cbn [existsb list_ascii_of_string].
    rewrite (Hnd e He), (Hnd f Hf), (Hnd g Hg), (Hnd h Hh). reflexivity. }
  change (timeToMinutes (p ++ String "-" q)%string = Ok
    (mkTimeRange
       (Num ((10 * digitOf a + digitOf b) * 60 + (10 * digitOf c + digitOf d)))
       (Num ((10 * digitOf e + digitOf f) * 60 + (10 * digitOf g + digitOf h))))).
  unfold timeToMinutes.
  rewrite (split_app_sep "-" p q Hp), (split_no_sep "-" q Hq).
  unfold p, q.
  rewrite (minutesOf_digits a b c d Ha Hb Hc Hd).
  rewrite (minutesOf_digits e f g h He Hf Hg Hh). reflexivity.
Qed.

Lemma timeToMinutes_digits_witness :
  timeToMinutes "1830-2120" = Ok (mkTimeRange (Num 1110) (Num 1280)).
Proof.
  exact (timeToMinutes_digits "1" "8" "3" "0" "2" "1" "2" "0"
           eq_refl eq_refl eq_refl eq_refl eq_refl eq_refl eq_refl eq_refl).
Defined.

Lemma includesChar_cons (sep c : ascii) (r : string) :
  includesChar sep (String c r) = false ->
  Ascii.eqb sep c = false /\ includesChar sep r = false.
Proof.
  unfold includesChar. cbn [existsb list_ascii_of_string].
  intros H. apply orb_false_iff in H. exact H.
Qed.

Lemma split_pieces (sep : ascii) (s : string) :
  Forall (fun p => includesChar sep p = false) (split sep s).
Proof.
  induction s as [| c r IH]; simpl.
  - constructor; [reflexivity | constructor].
  - destruct (Ascii.eqb c sep) eqn:Hc.
    + constructor; [reflexivity | exact IH].
    + assert (Hcons : forall p, includesChar sep p = false ->
                                includesChar sep (String c p) = false).
      { intros p Hp. unfold includesChar in *.
        cbn [existsb list_ascii_of_string].
        rewrite Ascii.eqb_sym, Hc. exact Hp. }
      destruct (split sep r) as [| p ps].
      * constructor; [apply Hcons; reflexivity | constructor].
      * inversion IH as [| ? ? Hp Hps]; subst.
        constructor; [apply Hcons; exact Hp | exact Hps].
Qed.

Lemma slice_to_no_sep (sep : ascii) (n : nat) :
  forall s, includesChar sep s = false ->
            includesChar sep (slice_to n s) = false.
Proof.
  induction n as [| n IH]; intros [| c r] H; try reflexivity.
  apply includesChar_cons in H. destruct H as [Hc Hr].
  simpl. unfold includesChar in *. cbn [existsb list_ascii_of_string].
  rewrite Hc. simpl. exact (IH r Hr).
Qed.

Lemma slice_from_no_sep (sep : ascii) (n : nat) :
  forall s, includesChar sep s = false ->
            includesChar sep (slice_from n s) = false.
Proof.
  induction n as [| n IH]; intros [| c r] H; try exact H.
  apply includesChar_cons in H. simpl. exact (IH r (proj2 H)).
Qed.

Lemma trimStart_no_sep (sep : ascii) (s : string) :
  includesChar sep s = false -> includesChar sep (trimStart s) = false.
Proof.
  induction s as [| c r IH]; intros H; simpl; [exact H |].
  destruct (isWhiteSpace c); [| exact H].
  apply includesChar_cons in H. exact (IH (proj2 H)).
Qed.

Lemma digitValue_nonneg (radix : Z) (c : ascii) (d : Z) :
  digitValue radix c = Some d -> 0 <= d.
Proof.
  unfold digitValue.
  destruct ((48 <=? Z.of_nat (nat_of_ascii c)) && (Z.of_nat (nat_of_ascii c) <=? 57)) eqn:E1.
  - intros H. injection H as <-. apply andb_true_iff in E1. lia.
  - destruct ((radix =? 16) && (97 <=? Z.of_nat (nat_of_ascii c))
              && (Z.of_nat (nat_of_ascii c) <=? 102)) eqn:E2.
    + intros H. injection H as <-. rewrite !andb_true_iff in E2. lia.
    + destruct ((radix =? 16) && (65 <=? Z.of_nat (nat_of_ascii c))
                && (Z.of_nat (nat_of_ascii c) <=? 70)) eqn:E3; [| discriminate].
      intros H. injection H as <-. rewrite !andb_true_iff in E3. lia.
Qed.

Lemma parseDigits_nonneg (radix : Z) (s : string) :
  0 < radix ->
  forall acc, (forall a, acc = Some a -> 0 <= a) ->
              forall m, parseDigits radix s acc = Some m -> 0 <= m.
Proof.
  intros Hr. induction s as [| c r IH]; intros acc Hacc m H; simpl in H.
  - exact (Hacc m H).
  - destruct (digitValue radix c) as [d |] eqn:Hd; [| exact (Hacc m H)].
    apply digitValue_nonneg in Hd.
    revert H. apply IH. intros a Ha.
    destruct acc as [a0 |]; injection Ha as <-; [| exact Hd].
    specialize (Hacc a0 eq_refl). nia.
Qed.

(** Without a ['-'] to read, [parseInt] gives [NaN] or a number that is
    not negative. *)
Lemma parseInt_notNegative (s : string) :
  includesChar "-" s = false -> notNegative (parseInt s).
Proof.
  intros H. apply trimStart_no_sep in H. unfold parseInt.
  match goal with
  | |- context [let '(sign, s2) := ?m in _] =>
      destruct m as [sign s2] eqn:E1
  end.
  assert (Hsign : sign = 1).
  { destruct (trimStart s) as [| c r]; [injection E1 as <- _; reflexivity |].
    apply includesChar_cons in H. destruct H as [Hc _].
    destruct c as [[|] [|] [|] [|] [|] [|] [|] [|]];
      cbn in Hc, E1; try discriminate Hc; injection E1 as <- _; reflexivity. }
  subst sign.
  match goal with
  | |- context [let '(radix, s3) := ?m in _] =>
      destruct m as [radix s3] eqn:E2
  end.
  assert (Hradix : 0 < radix).
  { destruct s2 as [| c [| x r]].
    - injection E2 as <- _; lia.
    - destruct c as [[|] [|] [|] [|] [|] [|] [|] [|]];
        cbn in E2; injection E2 as <- _; lia.
    - destruct c as [[|] [|] [|] [|] [|] [|] [|] [|]];
        cbn [fst snd] in E2; try (injection E2 as <- _; lia).
      destruct (Ascii.eqb x "x" || Ascii.eqb x "X");
        injection E2 as <- _; lia. }
  destruct (parseDigits radix s3 None) as [m |] eqn:Hm; unfold notNegative;
    [| exact I].
  apply (parseDigits_nonneg radix s3 Hradix None) in Hm; [lia | discriminate].
Qed.

Lemma minutesOf_notNegative (piece : string) :
  includesChar "-" piece = false -> notNegative (minutesOf piece).
Proof.
  intros H. unfold minutesOf.
  pose proof (parseInt_notNegative _ (slice_to_no_sep "-" 2 piece H)) as H1.
  pose proof (parseInt_notNegative _ (slice_from_no_sep "-" 2 piece H)) as H2.
  destruct (parseInt (slice_to 2 piece)), (parseInt (slice_from 2 piece));
    simpl in *; try exact I. lia.
Qed.

(** X4.  Whatever the time string, the start and the end that
    [timeToMinutes] returns are [NaN] or at least 0: the pieces hold no
    ['-'], so [parseInt] never reads a minus sign. *)
Theorem timeToMinutes_notNegative (time : string) (t : TimeRange) :
  timeToMinutes time = Ok t ->
  notNegative (tr_start t) /\ notNegative (tr_end t).
Proof.
  unfold timeToMinutes. pose proof (split_pieces "-" time) as Hp.
  destruct (split "-" time) as [| p [| q r]]; try discriminate.
  intros H. injection H as <-. simpl.
  inversion Hp as [| ? ? Hp1 Hp2]; subst.
  inversion Hp2 as [| ? ? Hq _]; subst.
  split; apply minutesOf_notNegative; assumption.
Qed.

Lemma timeToMinutes_notNegative_witness :
  timeToMinutes "0900--0100" = Ok (mkTimeRange (Num 540) NaN)
  /\ notNegative (Num 540) /\ notNegative NaN.
Proof.
  split; [reflexivity |].
  exact (timeToMinutes_notNegative "0900--0100" _ eq_refl).
Defined.

(** ** [hasConflict] and [sectionConflicts] *)

Lemma sectionConflicts_bool_sym (a b : SectionRec) :
  section_ok a = true -> section_ok b = true ->
  sectionConflicts a [b] = sectionConflicts b [a].
Proof.
  intros Ha Hb.
  assert (Hb1 : forallb section_ok [b] = true) by (simpl; rewrite Hb; reflexivity).
  assert (Ha1 : forallb section_ok [a] = true) by (simpl; rewrite Ha; reflexivity).
  destruct (sectionConflicts_total a [b] Ha Hb1) as [r1 H1].
  destruct (sectionConflicts_total b [a] Hb Ha1) as [r2 H2].
  pose proof (noConflict_sym a b) as Hsym. unfold noConflict in Hsym.
  rewrite H1, H2 in *. destruct r1, r2; congruence.
Qed.

(** X5.  The entry-level test does not depend on the order of its
    arguments, thrown exception included; with well-formed time strings
    neither does the section-level test of one section against another. *)
Theorem conflict_tests_symmetric (a b : SectionRec) :
  (forall x y, hasConflict x y = hasConflict y x)
  /\ (sectionConflicts a [b] = Ok false <-> sectionConflicts b [a] = Ok false)
  /\ (section_ok a = true -> section_ok b = true ->
      sectionConflicts a [b] = sectionConflicts b [a]).
Proof.
  split; [exact hasConflict_sym |]. split.
  - pose proof (noConflict_sym a b) as H. unfold noConflict in H.
    destruct (sectionConflicts a [b]) as [[|] |],
             (sectionConflicts b [a]) as [[|] |];
      split; intros E; congruence.
  - apply sectionConflicts_bool_sym.
Qed.

Lemma conflict_tests_symmetric_witness :
  section_ok A1 = true /\ section_ok E1 = true
  /\ sectionConflicts A1 [E1] = sectionConflicts E1 [A1].
Proof.
  split; [reflexivity |]. split; [reflexivity |].
  exact (proj2 (proj2 (conflict_tests_symmetric A1 E1)) eq_refl eq_refl).
Defined.

(** X6.  A row whose time string has its ['-'] but decodes to [NaN] on
    both sides (as ["-"] or ["TBA-TBA"] do) is reported in conflict with
    every row that shares a marked day with it, whatever that row's
    times are: every comparison with [NaN] is false and the test is a
    negation. *)
Theorem undecodable_time_conflicts (a b : Schedule) (tb : TimeRange) :
  timeToMinutes (sch_time a) = Ok (mkTimeRange NaN NaN) ->
  timeToMinutes (sch_time b) = Ok tb ->
  sharedDay a b ->
  hasConflict a b = Ok true /\ hasConflict b a = Ok true.
Proof.
  intros Ha Hb Hs.
  assert (H : hasConflict a b = Ok true).
  { rewrite (hasConflict_decoded a b _ _ Ha Hb).
    apply noCommonDay_false in Hs. rewrite Hs. simpl.
    destruct (tr_start tb), (tr_end tb); reflexivity. }
  split; [exact H | rewrite hasConflict_sym; exact H].
Qed.

Lemma undecodable_time_conflicts_witness :
  timeToMinutes (sch_time (entry "Lecture" "M------" "TBA-TBA"))
  = Ok (mkTimeRange NaN NaN)
  /\ sharedDay (entry "Lecture" "M------" "TBA-TBA") lectureRow
  /\ hasConflict (entry "Lecture" "M------" "TBA-TBA") lectureRow = Ok true.
Proof.
  assert (Hs : sharedDay (entry "Lecture" "M------" "TBA-TBA") lectureRow).
  { exists 0%nat. split; exists "M"%char; (split; [reflexivity | discriminate]). }
  split; [reflexivity |]. split; [exact Hs |].
  exact (proj1 (undecodable_time_conflicts
                  (entry "Lecture" "M------" "TBA-TBA") lectureRow _
                  eq_refl eq_refl Hs)).
Defined.

Lemma properRow_self (x : Schedule) : properRow x -> hasConflict x x = Ok true.
Proof.
  intros [[i Hi] [s [e [Ht Hlt]]]].
  rewrite (hasConflict_decoded x x _ _ Ht Ht). simpl.
  assert (Hs : sharedDay x x) by (exists i; tauto).
  apply noCommonDay_false in Hs. rewrite Hs. f_equal.
  apply negb_true_iff, orb_false_iff. split; apply Z.leb_gt; exact Hlt.
Qed.

(** X7.  A row with a marked day and [start < end] conflicts with
    itself, so a section holding such a row is never accepted next to
    itself: no returned timetable has it at two positions (as could be
    asked for by listing a course twice). *)
Theorem no_section_twice (a : SectionRec) (x : Schedule) :
  In x (schedule a) -> properRow x ->
  hasConflict x x = Ok true
  /\ sectionConflicts a [a] <> Ok false
  /\ forall courses L timetables chosen i j,
       generateTimetables courses L = Ok timetables ->
       In chosen timetables -> i <> j ->
       nth_error chosen i = Some a -> nth_error chosen j = Some a -> False.
Proof.
  intros Hx Hp. pose proof (properRow_self x Hp) as Hself.
  assert (Hne : sectionConflicts a [a] <> Ok false).
  { intros H. rewrite sectionConflicts_false in H.
    specialize (H a (or_introl eq_refl) x x Hx Hx). congruence. }
  split; [exact Hself |]. split; [exact Hne |].
  intros courses L timetables chosen i j Hgen Hch Hij Hi Hj.
  pose proof (returned_pairs_noConflict courses L timetables Hgen chosen Hch
                i j a a Hij Hi Hj) as Hnc.
  unfold noConflict in Hnc.
  destruct (sectionConflicts a [a]) as [[|] |]; congruence.
Qed.

Lemma no_section_twice_witness :
  In lectureRow (schedule A1) /\ properRow lectureRow
  /\ sectionConflicts A1 [A1] <> Ok false
  /\ generateTimetables [mkCourse "CPSC" "1150" [A1];
                         mkCourse "CPSC" "1150" [A1]] 10 = Ok [].
Proof.
  assert (Hx : In lectureRow (schedule A1)) by (left; reflexivity).
  assert (Hp : properRow lectureRow).
  { split.
    - exists 0%nat. exists "M"%char. split; [reflexivity | discriminate].
    - exists 540, 600. split; [reflexivity | lia]. }
  split; [exact Hx |]. split; [exact Hp |].
  split; [| reflexivity].
  exact (proj1 (proj2 (no_section_twice A1 lectureRow Hx Hp))).
Defined.

(** X8.  The test of a section against a list of selected sections
    decomposes pairwise: it returns [false] exactly when it returns
    [false] against each selected section alone.  Against no section at
    all, or for a section without rows, it returns [false] without
    reading any time string. *)
Theorem sectionConflicts_pairwise (section : SectionRec)
    (selected : list SectionRec) :
  (sectionConflicts section selected = Ok false
   <-> forall other, In other selected ->
                     sectionConflicts section [other] = Ok false)
  /\ sectionConflicts section [] = Ok false
  /\ (schedule section = [] -> sectionConflicts section selected = Ok false).
Proof.
  split; [| split].
  - rewrite sectionConflicts_false. split.
    + intros H other Hin. apply sectionConflicts_false.
      intros o [<- | []] x y Hx Hy. exact (H other Hin x y Hx Hy).
    + intros H other Hin x y Hx Hy. specialize (H other Hin).
      rewrite sectionConflicts_false in H.
      exact (H other (or_introl eq_refl) x y Hx Hy).
  - reflexivity.
  - intros Hs. apply sectionConflicts_false.
    intros other _ x y Hx _. rewrite Hs in Hx. contradiction.
Qed.

Lemma anyOf_true {A : Type} (test : A -> result bool) (l : list A) :
  (forall x, In x l -> exists b, test x = Ok b) ->
  (anyOf test l = Ok true <-> exists x, In x l /\ test x = Ok true).
Proof.
  intros Htot.
  destruct (anyOf_total test l Htot) as [[|] Hr]; rewrite Hr.
  - split; [intros _ | reflexivity].
    induction l as [| x r IH]; simpl in Hr; [discriminate |].
    destruct (Htot x (or_introl eq_refl)) as [[|] Hx]; rewrite Hx in Hr;
      simpl in Hr.
    + exists x. split; [left; reflexivity | exact Hx].
    + destruct (IH (fun y Hy => Htot y (or_intror Hy)) Hr) as [y [Hy Hty]].
      exists y. split; [right; exact Hy | exact Hty].
  - split; [discriminate |].
    intros [x [Hx Htx]]. rewrite anyOf_false in Hr.
    specialize (Hr x Hx). congruence.
Qed.

(** X9.  With well-formed time strings [sectionConflicts] returns
    [true] exactly when some row of the section conflicts with some row
    of some selected section. *)
Theorem sectionConflicts_true_iff (section : SectionRec)
    (selected : list SectionRec) :
  section_ok section = true ->
  forallb section_ok selected = true ->
  (sectionConflicts section selected = Ok true
   <-> exists other x y,
         In other selected /\ In x (schedule section)
         /\ In y (schedule other) /\ hasConflict x y = Ok true).
Proof.
  intros Hs Hsel. unfold section_ok in Hs.
  rewrite forallb_forall in Hs, Hsel.
  assert (Hrow : forall other x, In other selected -> In x (schedule section) ->
            forall y, In y (schedule other) -> exists b, hasConflict x y = Ok b).
  { intros other x Ho Hx y Hy. apply hasConflict_total; [exact (Hs x Hx) |].
    specialize (Hsel other Ho). unfold section_ok in Hsel.
    rewrite forallb_forall in Hsel. exact (Hsel y Hy). }
  assert (Hmid : forall other, In other selected ->
            forall x, In x (schedule section) ->
              exists b, anyOf (fun y => hasConflict x y) (schedule other) = Ok b).
  { intros other Ho x Hx. apply anyOf_total. exact (Hrow other x Ho Hx). }
  assert (Hout : forall other, In other selected ->
            exists b, anyOf (fun x => anyOf (fun y => hasConflict x y)
                                            (schedule other))
                            (schedule section) = Ok b).
  { intros other Ho. apply anyOf_total. exact (Hmid other Ho). }
  unfold sectionConflicts. rewrite (anyOf_true _ _ Hout). split.
  - intros [other [Ho H]].
    rewrite (anyOf_true _ _ (Hmid other Ho)) in H. destruct H as [x [Hx H]].
    rewrite (anyOf_true _ _ (Hrow other x Ho Hx)) in H. destruct H as [y [Hy H]].
    exists other, x, y. tauto.
  - intros [other [x [y [Ho [Hx [Hy H]]]]]].
    exists other. split; [exact Ho |].
    rewrite (anyOf_true _ _ (Hmid other Ho)). exists x. split; [exact Hx |].
    rewrite (anyOf_true _ _ (Hrow other x Ho Hx)). exists y. tauto.
Qed.

Lemma sectionConflicts_true_iff_witness :
  section_ok E1 = true /\ forallb section_ok [C1; A1] = true
  /\ sectionConflicts E1 [C1; A1] = Ok true.
Proof.
  split; [reflexivity |]. split; [reflexivity |].
  apply (proj2 (sectionConflicts_true_iff E1 [C1; A1] eq_refl eq_refl)).
  exists A1, examRow, lectureRow.
  split; [right; left; reflexivity |].
  split; [right; left; reflexivity |].
  split; [left; reflexivity | reflexivity].
Defined.

Lemma sectionConflicts_pairwise_witness :
  schedule X1 = [] /\ sectionConflicts X1 [X2] = Ok false.
Proof.
  split; [reflexivity |].
  exact (proj2 (proj2 (sectionConflicts_pairwise X1 [X2])) eq_refl).
Defined.

(** ** [generateTimetables] *)

Lemma cartesian_picks (courses : list Course) :
  forall t, In t (cartesian courses) ->
            Forall2 (fun course s => In s (sections course)) courses t.
Proof.
  induction courses as [| course later IH]; simpl; intros t Hin.
  - destruct Hin as [<- | []]. constructor.
  - apply in_flat_map in Hin. destruct Hin as [s [Hs Hin]].
    apply in_map_iff in Hin. destruct Hin as [t' [<- Hin]].
    constructor; [exact Hs | apply IH; exact Hin].
Qed.

Lemma returned_picks (courses : list Course) (L : Z)
    (timetables : list Timetable) :
  generateTimetables courses L = Ok timetables ->
  forall t, In t timetables ->
            Forall2 (fun course s => In s (sections course)) courses t.
Proof.
  intros H t Hin. apply generateTimetables_Ok in H. subst timetables.
  apply In_firstn in Hin. unfold bruteForce in Hin.
  apply filter_In in Hin. apply cartesian_picks. exact (proj1 Hin).
Qed.

(** X10.  Every returned timetable holds exactly one section per course,
    in the order of the course list, the section at each position being
    one of that course's candidates. *)
Theorem timetables_pick_from_courses (courses : list Course) (L : Z)
    (timetables : list Timetable) :
  generateTimetables courses L = Ok timetables ->
  forall t, In t timetables ->
    List.length t = List.length courses
    /\ Forall2 (fun course s => In s (sections course)) courses t.
Proof.
  intros H t Hin. pose proof (returned_picks courses L timetables H t Hin) as HF.
  split; [| exact HF].
  symmetry. clear -HF. induction HF; simpl; [reflexivity | f_equal; assumption].
Qed.

Lemma timetables_pick_from_courses_witness :
  generateTimetables [courseA; courseC] 2 = Ok [[A1; C1]; [A1; C2]]
  /\ List.length [A1; C2] = List.length [courseA; courseC]
  /\ Forall2 (fun course s => In s (sections course)) [courseA; courseC] [A1; C2].
Proof.
  split; [reflexivity |].
  exact (timetables_pick_from_courses [courseA; courseC] 2
           [[A1; C1]; [A1; C2]] eq_refl [A1; C2]
           (or_intror (or_introl eq_refl))).
Defined.

(** X11.  Raising the limit only appends: the result for a limit is the
    prefix of that length of the result for any larger limit. *)
Theorem limit_monotone (courses : list Course) (L1 L2 : Z)
    (r1 r2 : list Timetable) :
  L1 <= L2 ->
  generateTimetables courses L1 = Ok r1 ->
  generateTimetables courses L2 = Ok r2 ->
  r1 = firstn (Z.to_nat L1) r2.
Proof.
  intros HL H1 H2.
  apply generateTimetables_Ok in H1, H2. subst r1 r2.
  rewrite firstn_firstn. f_equal. lia.
Qed.

Lemma limit_monotone_witness :
  1 <= 3
  /\ generateTimetables [courseA; courseC] 1 = Ok [[A1; C1]]
  /\ generateTimetables [courseA; courseC] 3 = Ok [[A1; C1]; [A1; C2]; [A2; C1]]
  /\ [[A1; C1]] = firstn (Z.to_nat 1) [[A1; C1]; [A1; C2]; [A2; C1]].
Proof.
  assert (H : 1 <= 3) by lia.
  split; [exact H |]. split; [reflexivity |]. split; [reflexivity |].
  exact (limit_monotone [courseA; courseC] 1 3 _ _ H eq_refl eq_refl).
Defined.

Lemma single_course_total (L : Z) (course : Course) :
  exists r, generateTimetables [course] L = Ok r.
Proof.
  unfold generateTimetables.
  destruct (Z.le_gt_cases L 0) as [Hge | Hlt].
  - rewrite backtrack_stop by (simpl; lia). eexists; reflexivity.
  - rewrite backtrack_node by (simpl; lia).
    apply forEach_total. intros s tts _. simpl.
    destruct (L <=? Z.of_nat (List.length tts)); eexists; reflexivity.
Qed.

(** X12.  For a single course nothing can conflict: the result lists its
    first [maxTimetables] sections, each as a timetable of its own, and
    no time string is read (so none can make the call throw). *)
Theorem single_course (course : Course) (L : Z) :
  generateTimetables [course] L
  = Ok (map (fun s => [s]) (firstn (Z.to_nat L) (sections course))).
Proof.
  destruct (single_course_total L course) as [r Hr]. rewrite Hr. f_equal.
  apply generateTimetables_Ok in Hr. rewrite Hr.
  unfold bruteForce. simpl.
  assert (Hall : forall l : list SectionRec,
            filter conflictFree (flat_map (fun s => [[s]]) l)
            = map (fun s => [s]) l).
  { induction l as [| s l IH]; simpl; [reflexivity | rewrite IH; reflexivity]. }
  rewrite Hall. apply firstn_map.
Qed.

(** X13.  [generateTimetables] throws only when the limit is positive,
    there are at least two courses and some row has a time string
    without ['-']. *)
Theorem throws_only_on_malformed_time (courses : list Course) (L : Z) :
  generateTimetables courses L = TypeError ->
  0 < L /\ (2 <= List.length courses)%nat /\ courses_ok courses = false.
Proof.
  intros H. split; [| split].
  - destruct (Z.le_gt_cases L 0) as [Hle | Hlt]; [| lia].
    unfold generateTimetables in H.
    rewrite backtrack_stop in H by (simpl; lia). discriminate H.
  - destruct courses as [| c [| c' rest]]; simpl; try lia.
    + unfold generateTimetables in H. simpl in H.
      destruct (L <=? 0); discriminate H.
    + destruct (single_course_total L c) as [r Hr]. congruence.
  - destruct (courses_ok courses) eqn:Hok; [| reflexivity].
    destruct (generateTimetables_total courses L Hok) as [r Hr]. congruence.
Qed.

Lemma throws_only_on_malformed_time_witness :
  generateTimetables [courseB; courseX] 1 = TypeError
  /\ 0 < 1 /\ (2 <= List.length [courseB; courseX])%nat
  /\ courses_ok [courseB; courseX] = false.
Proof.
  split; [reflexivity |].
  exact (throws_only_on_malformed_time [courseB; courseX] 1 eq_refl).
Defined.

Lemma cartesian_count (courses : list Course) :
  List.length (cartesian courses) = combinations courses.
Proof.
  induction courses as [| course later IH]; simpl; [reflexivity |].
  rewrite <- IH. generalize (cartesian later) as rest. intros rest.
  induction (sections course) as [| s r IHr]; [reflexivity |].
  cbn [flat_map List.length Nat.mul].
  rewrite length_app, length_map. f_equal. exact IHr.
Qed.

(** X14.  The number of timetables returned never exceeds the product of
    the courses' section counts. *)
Theorem count_at_most_product (courses : list Course) (L : Z)
    (timetables : list Timetable) :
  generateTimetables courses L = Ok timetables ->
  (List.length timetables <= combinations courses)%nat.
Proof.
  intros H. apply generateTimetables_Ok in H. subst timetables.
  rewrite length_firstn, <- cartesian_count. unfold bruteForce.
  pose proof (filter_length_le conflictFree (cartesian courses)). lia.
Qed.

Lemma count_at_most_product_witness :
  generateTimetables [courseA; courseB; courseC] 10
  = Ok [[A2; B1; C1]; [A2; B1; C2]]
  /\ combinations [courseA; courseB; courseC] = 4%nat
  /\ (List.length [[A2; B1; C1]; [A2; B1; C2]]
      <= combinations [courseA; courseB; courseC])%nat.
Proof.
  split; [reflexivity |]. split; [reflexivity |].
  exact (count_at_most_product [courseA; courseB; courseC] 10 _ eq_refl).
Defined.

(** * Properties of the calendar helper *)

(** ** One schedule row *)

Lemma DAYS_MAP_range (c : ascii) (n : Z) :
  DAYS_MAP c = Some n -> 1 <= n <= 6 /\ c <> "-"%char.
Proof.
  unfold DAYS_MAP. intros H.
  repeat match type of H with
         | (if Ascii.eqb c ?k then _ else _) = _ =>
             destruct (Ascii.eqb c k) eqn:E; cbv iota in H;
             [apply Ascii.eqb_eq in E; subst c; injection H as <-;
              split; [lia | discriminate] | clear E]
         end.
  discriminate H.
Qed.

Lemma DAYS_MAP_saturday (c : ascii) : DAYS_MAP c = Some 6 -> c = "S"%char.
Proof.
  unfold DAYS_MAP. intros H.
  repeat match type of H with
         | (if Ascii.eqb c ?k then _ else _) = _ =>
             destruct (Ascii.eqb c k) eqn:E; cbv iota in H;
             [apply Ascii.eqb_eq in E; subst c;
              first [reflexivity | discriminate H] | clear E]
         end.
  discriminate H.
Qed.

(** The loop of [createEventsFromSchedule] in closed form: the events
    are built from the day numbers of the pattern, all with the same
    times, and the loop throws at the first day that yields an event. *)
Lemma createEvents_dated_closed (start end_ : option string)
    (schedule : Schedule) (section : SectionRec) :
  createEvents_dated start end_ schedule section
  = match dayNumbers (sch_days schedule) with
    | [] => Ok []
    | ns =>
        times <- eventTimes start end_
                   (hd EmptyString (split "-" (sch_time schedule)))
                   (nth_error (split "-" (sch_time schedule)) 1) ;;
        Ok (map (eventWith start end_ schedule section times
                   (generateColor (sec_subject section)
                                  (sec_course_code section)))
                ns)
    end.
Proof.
  unfold createEvents_dated.
  set (tm := eventTimes _ _ _ _).
  set (color := generateColor _ _).
  set (body := fun (day : ascii) (events : list CalendarEvent) => _).
  assert (Hgen : forall days acc,
            forEach body (list_ascii_of_string days) acc
            = match dayNumbers days with
              | [] => Ok acc
              | ns => times <- tm ;;
                      Ok (acc ++ map (eventWith start end_ schedule section
                                        times color) ns)
              end).
  { induction days as [| c r IH]; intros acc; [reflexivity |].
    cbn [list_ascii_of_string forEach dayNumbers].
    change (forEach body (list_ascii_of_string r))
      with ((fix go (l : list ascii) (s : list CalendarEvent) :=
               match l with
               | [] => Ok s
               | x :: r0 => s' <- body x s ;; go r0 s'
               end) (list_ascii_of_string r)) in IH.
    unfold body at 1.
    destruct (Ascii.eqb_spec c "-"%char) as [-> | Hc].
    - simpl bind. rewrite IH. reflexivity.
    - destruct (DAYS_MAP c) as [n |].
      + unfold eventOn. fold tm. destruct tm as [times |]; simpl bind.
        * rewrite IH. destruct (dayNumbers r) as [| m ms].
          -- reflexivity.
          -- simpl bind. rewrite <- app_assoc. reflexivity.
        * reflexivity.
      + simpl bind. rewrite IH. reflexivity. }
  rewrite Hgen. destruct (dayNumbers (sch_days schedule)); [reflexivity |].
  destruct tm; reflexivity.
Qed.

Lemma dayNumbers_range (dayStr : string) :
  Forall (fun n => 1 <= n <= 6) (dayNumbers dayStr).
Proof.
  induction dayStr as [| c r IH]; simpl; [constructor |].
  destruct (DAYS_MAP c) as [n |] eqn:E; [| exact IH].
  constructor; [exact (proj1 (DAYS_MAP_range c n E)) | exact IH].
Qed.

Lemma createEvents_dated_Ok (start end_ : option string)
    (schedule : Schedule) (section : SectionRec)
    (events : list CalendarEvent) :
  createEvents_dated start end_ schedule section = Ok events ->
  (dayNumbers (sch_days schedule) = [] /\ events = [])
  \/ exists times,
       eventTimes start end_
         (hd EmptyString (split "-" (sch_time schedule)))
         (nth_error (split "-" (sch_time schedule)) 1) = Ok times
       /\ events
          = map (eventWith start end_ schedule section times
                   (generateColor (sec_subject section)
                                  (sec_course_code section)))
                (dayNumbers (sch_days schedule)).
Proof.
  rewrite createEvents_dated_closed.
  destruct (dayNumbers (sch_days schedule)) as [| n ns].
  - intros H. injection H as <-. left; split; reflexivity.
  - destruct (eventTimes _ _ _ _) as [times |]; simpl; [| discriminate].
    intros H. injection H as <-. right. exists times. split; reflexivity.
Qed.

(** X15.  [createEventsFromSchedule] makes one event for each character
    of the day pattern that is a key of [DAYS_MAP] (M, T, W, R, F, S), in
    the order of the pattern, each on that single day, numbered 1 to 6;
    ['-'], the Sunday letter and any other character give no event. *)
Theorem events_follow_day_letters (start end_ : option string)
    (schedule : Schedule) (section : SectionRec)
    (events : list CalendarEvent) :
  createEvents_dated start end_ schedule section = Ok events ->
  map ev_daysOfWeek events
  = map (fun n => [n]) (dayNumbers (sch_days schedule))
  /\ Forall (fun e => exists n, ev_daysOfWeek e = [n] /\ 1 <= n <= 6) events.
Proof.
  intros H. apply createEvents_dated_Ok in H.
  pose proof (dayNumbers_range (sch_days schedule)) as Hr.
  destruct H as [[-> ->] | [times [_ ->]]].
  - split; [reflexivity | constructor].
  - split.
    + rewrite map_map. reflexivity.
    + apply Forall_forall. intros e He. apply in_map_iff in He.
      destruct He as [n [<- Hn]]. exists n. split; [reflexivity |].
      rewrite Forall_forall in Hr. exact (Hr n Hn).
Qed.

Lemma events_follow_day_letters_witness :
  exists events,
    createEvents_dated (Some "2025-01-08") None oddRow A1 = Ok events
    /\ map ev_daysOfWeek events = [[1]; [4]; [6]].
Proof.
  destruct (createEvents_dated (Some "2025-01-08") None oddRow A1)
    as [events |] eqn:E; [| discriminate E].
  exists events. split; [reflexivity |].
  exact (proj1 (events_follow_day_letters _ _ oddRow A1 events E)).
Defined.

Lemma canonicalFrom_cons (l : ascii) (ls : list ascii) (s : string) :
  canonicalFrom (l :: ls) s ->
  exists c r, s = String c r /\ (c = "-"%char \/ c = l) /\ canonicalFrom ls r.
Proof.
  destruct s as [| c r]; simpl; [contradiction |].
  intros [Hc Hr]. exists c, r. tauto.
Qed.

Lemma canonicalFrom_nil (s : string) : canonicalFrom [] s -> s = EmptyString.
Proof. destruct s; simpl; [reflexivity | contradiction]. Qed.

Lemma dayNumbers_canonical (dayStr : string) :
  canonicalDays dayStr ->
  dayNumbers dayStr
  = map (fun i => Z.of_nat i + 1)
        (filter (fun i => Nat.ltb i 6) (getDays dayStr)).
Proof.
  unfold canonicalDays, weekLetters. intros H.
  repeat match goal with
         | H : canonicalFrom (_ :: _) _ |- _ =>
             apply canonicalFrom_cons in H;
             destruct H as [? [? [-> [[-> | ->] H]]]]
         end;
    apply canonicalFrom_nil in H; subst; reflexivity.
Qed.

(** X16.  On a day pattern in the data's form (seven slots holding
    ['-'] or the slot's letter of MTWRFSU) the calendar and the generator
    agree: the events fall on the positions [getDays] reports, numbered
    from 1 for Monday, except that a Sunday slot (position 6) gives no
    event. *)
Theorem events_agree_with_getDays (start end_ : option string)
    (schedule : Schedule) (section : SectionRec)
    (events : list CalendarEvent) :
  canonicalDays (sch_days schedule) ->
  createEvents_dated start end_ schedule section = Ok events ->
  List.concat (map ev_daysOfWeek events)
  = map (fun i => Z.of_nat i + 1)
        (filter (fun i => Nat.ltb i 6) (getDays (sch_days schedule))).
Proof.
  intros Hc H. rewrite <- (dayNumbers_canonical _ Hc).
  apply createEvents_dated_Ok in H.
  destruct H as [[-> ->] | [times [_ ->]]]; [reflexivity |].
  rewrite map_map. simpl.
  induction (dayNumbers (sch_days schedule)) as [| n ns IH]; simpl;
    [reflexivity | rewrite IH; reflexivity].
Qed.

Lemma events_agree_with_getDays_witness :
  canonicalDays (sch_days lectureRow)
  /\ getDays (sch_days lectureRow) = [0; 2]%nat
  /\ exists events,
       createEventsFromSchedule lectureRow A1 = Ok events
       /\ List.concat (map ev_daysOfWeek events) = [1; 3].
Proof.
  assert (Hc : canonicalDays (sch_days lectureRow)).
  { unfold canonicalDays, weekLetters. simpl. tauto. }
  split; [exact Hc |]. split; [reflexivity |].
  destruct (createEventsFromSchedule lectureRow A1) as [events |] eqn:E;
    [| discriminate E].
  exists events. split; [reflexivity |].
  exact (events_agree_with_getDays _ _ lectureRow A1 events Hc E).
Defined.

Lemma event_is_one_day_true (start end_ : option string) :
  event_is_one_day start end_ = true
  <-> exists d, start = Some d /\ end_ = Some d.
Proof.
  unfold event_is_one_day. split.
  - destruct start as [a |], end_ as [b |]; try discriminate.
    intros H. apply String.eqb_eq in H. subst b. exists a. tauto.
  - intros [d [-> ->]]. apply String.eqb_refl.
Qed.

(** X17.  An event gets the clock times of its row unless the row's
    start and end dates are both present and equal: a one-day row (an
    exam) yields events with neither [startTime] nor [endTime], any other
    row yields events whose [startTime] and [endTime] are [formatTime] of
    the two halves of the time string.  In both cases [start] and [end]
    are the row's dates when these are non-empty strings, and are left
    out otherwise. *)
Theorem event_times (start end_ : option string) (schedule : Schedule)
    (section : SectionRec) (events : list CalendarEvent) :
  createEvents_dated start end_ schedule section = Ok events ->
  forall e, In e events ->
    ((exists d, start = Some d /\ end_ = Some d) ->
     ev_startTime e = None /\ ev_endTime e = None)
    /\ (~ (exists d, start = Some d /\ end_ = Some d) ->
        exists p q rest,
          split "-" (sch_time schedule) = p :: q :: rest
          /\ ev_startTime e = Some (formatTime p)
          /\ ev_endTime e = Some (formatTime q))
    /\ ev_start e = givenDate start
    /\ ev_end e = givenDate end_.
Proof.
  intros H e He. apply createEvents_dated_Ok in H.
  destruct H as [[_ ->] | [times [Ht ->]]]; [contradiction |].
  apply in_map_iff in He. destruct He as [n [<- _]]. simpl.
  unfold eventTimes in Ht.
  pose proof (event_is_one_day_true start end_) as Hone.
  destruct (event_is_one_day start end_).
  - injection Ht as <-. split; [intros _; split; reflexivity |].
    split; [| split; reflexivity].
    intros Hn. exfalso. apply Hn, Hone. reflexivity.
  - split; [| split; [| split; reflexivity]].
    + intros Hd. apply Hone in Hd. discriminate Hd.
    + intros _.
      destruct (split "-" (sch_time schedule)) as [| p [| q rest]];
        try discriminate Ht.
      simpl in Ht. injection Ht as <-. exists p, q, rest. repeat split.
Qed.

Lemma event_times_witness :
  exists events,
    createEventsFromSchedule examRow E1 = Ok events
    /\ map ev_startTime events = [None]
    /\ map ev_start events = [Some "2025-04-14"].
Proof.
  destruct (createEventsFromSchedule examRow E1) as [events |] eqn:E;
    [| discriminate E].
  exists events. split; [reflexivity |].
  assert (Hev : exists e, events = [e]).
  { vm_compute in E. injection E as <-. eexists; reflexivity. }
  destruct Hev as [e ->].
  destruct (event_times _ _ examRow E1 [e] E e (or_introl eq_refl))
    as [Hone [_ [Hs _]]].
  destruct (Hone (ex_intro _ "2025-04-14" (conj eq_refl eq_refl))) as [H1 _].
  simpl. rewrite H1, Hs. split; reflexivity.
Defined.

(** X18.  [createEventsFromSchedule] throws exactly when the row would
    yield an event (its pattern holds a letter of [DAYS_MAP]), is not a
    one-day row, and its time string has no ['-']. *)
Theorem createEvents_throws_iff (start end_ : option string)
    (schedule : Schedule) (section : SectionRec) :
  createEvents_dated start end_ schedule section = TypeError
  <-> dayNumbers (sch_days schedule) <> []
      /\ event_is_one_day start end_ = false
      /\ includesChar "-" (sch_time schedule) = false.
Proof.
  rewrite createEvents_dated_closed, <- split_single. unfold eventTimes.
  destruct (dayNumbers (sch_days schedule)) as [| n ns].
  - split; [discriminate | intros [H _]; congruence].
  - destruct (event_is_one_day start end_); simpl.
    + split; [discriminate | intros [_ [H _]]; discriminate H].
    + destruct (split "-" (sch_time schedule)) as [| p [| q rest]] eqn:E; simpl.
      * exfalso. exact (split_nonempty _ _ E).
      * split; [| reflexivity]. intros _.
        split; [discriminate |]. split; [reflexivity |].
        exists p; reflexivity.
      * split; [discriminate |]. intros [_ [_ [p' Hp']]]. discriminate Hp'.
Qed.

Lemma createEvents_throws_iff_witness :
  createEventsFromSchedule brokenRow X2 = TypeError
  /\ dayNumbers (sch_days brokenRow) = [1]
  /\ includesChar "-" (sch_time brokenRow) = false.
Proof.
  split; [| split; reflexivity].
  apply (proj2 (createEvents_throws_iff (Some (sch_start brokenRow))
                  (Some (sch_end brokenRow)) brokenRow X2)).
  split; [discriminate | split; reflexivity].
Defined.

(** ** A list of sections *)

Lemma forEach_collect {A B : Type} (body : A -> list B -> result (list B))
    (R : A -> list B -> Prop) :
  (forall x acc r, body x acc = Ok r <-> exists ys, R x ys /\ r = acc ++ ys) ->
  forall l acc r,
    forEach body l acc = Ok r
    <-> exists yss, Forall2 R l yss /\ r = acc ++ List.concat yss.
Proof.
  intros Hbody. induction l as [| x l IH]; intros acc r; simpl.
  - split.
    + intros H. injection H as <-. exists []. split; [constructor |].
      simpl. symmetry; apply app_nil_r.
    + intros [yss [HF ->]]. inversion HF; subst. simpl.
      rewrite app_nil_r. reflexivity.
  - destruct (body x acc) as [mid |] eqn:Hx; simpl.
    + apply Hbody in Hx. destruct Hx as [ys [Hys ->]].
      rewrite IH. split.
      * intros [yss [HF ->]]. exists (ys :: yss).
        split; [constructor; assumption |]. simpl. symmetry; apply app_assoc.
      * intros [yss [HF ->]]. inversion HF as [| ? ys' ? yss' Hys' HF']; subst.
        assert (Hmid : body x acc = Ok (acc ++ ys'))
          by (apply Hbody; exists ys'; tauto).
        assert (Hmid0 : body x acc = Ok (acc ++ ys))
          by (apply Hbody; exists ys; tauto).
        rewrite Hmid in Hmid0. injection Hmid0 as Heq.
        apply app_inv_head in Heq. subst ys'.
        exists yss'. split; [exact HF' |]. simpl. apply app_assoc.
    + split; [discriminate |].
      intros [yss [HF _]]. inversion HF as [| ? ys' ? yss' Hys' HF']; subst.
      assert (Hmid : body x acc = Ok (acc ++ ys'))
        by (apply Hbody; exists ys'; tauto).
      congruence.
Qed.

(** The inner loop of [convertScheduleToEvents], over the rows of one
    section. *)
Lemma convert_rows (section : SectionRec) (acc r : list CalendarEvent) :
  forEach (fun schedule events =>
             scheduleEvents <- createEventsFromSchedule schedule section ;;
             Ok (events ++ scheduleEvents))
          (schedule section) acc = Ok r
  <-> exists evs,
        (exists perRow,
            Forall2 (fun row es =>
                       createEventsFromSchedule row section = Ok es)
                    (schedule section) perRow
            /\ evs = List.concat perRow)
        /\ r = acc ++ evs.
Proof.
  rewrite (forEach_collect _
             (fun row es => createEventsFromSchedule row section = Ok es)).
  - split.
    + intros [perRow [HF ->]]. exists (List.concat perRow).
      split; [exists perRow; tauto | reflexivity].
    + intros [ys [[perRow [HF ->]] ->]]. exists perRow. tauto.
  - intros row acc' r'.
    destruct (createEventsFromSchedule row section) as [es |]; simpl.
    + split.
      * intros H. injection H as <-. exists es. tauto.
      * intros [ys [Hys ->]]. injection Hys as ->. reflexivity.
    + split; [discriminate | intros [ys [Hys _]]; discriminate Hys].
Qed.

(** X19.  [convertScheduleToEvents] returns the events of every row of
    every section, concatenated in the order of the sections and, within
    a section, of its rows; it returns exactly when
    [createEventsFromSchedule] returns for every row. *)
Theorem convertScheduleToEvents_concat (sections : list SectionRec)
    (events : list CalendarEvent) :
  convertScheduleToEvents sections = Ok events
  <-> exists perSection,
        Forall2 (fun section evs =>
                   exists perRow,
                     Forall2 (fun row es =>
                                createEventsFromSchedule row section = Ok es)
                             (schedule section) perRow
                     /\ evs = List.concat perRow)
                sections perSection
        /\ events = List.concat perSection.
Proof.
  unfold convertScheduleToEvents.
  rewrite (forEach_collect _
             (fun section evs =>
                exists perRow,
                  Forall2 (fun row es =>
                             createEventsFromSchedule row section = Ok es)
                          (schedule section) perRow
                  /\ evs = List.concat perRow)).
  - simpl. reflexivity.
  - intros section acc r. apply convert_rows.
Qed.

Lemma Forall2_concat_In {A B : Type} (R : A -> list B -> Prop) (l : list A)
    (yss : list (list B)) (y : B) :
  Forall2 R l yss -> In y (List.concat yss) ->
  exists x ys, In x l /\ R x ys /\ In y ys.
Proof.
  intros HF. induction HF as [| x ys l yss Hx _ IH]; simpl; [contradiction |].
  intros Hin. apply in_app_or in Hin. destruct Hin as [Hin | Hin].
  - exists x, ys. split; [left; reflexivity | tauto].
  - destruct (IH Hin) as [x' [ys' [H1 H2]]]. exists x', ys'.
    split; [right; exact H1 | exact H2].
Qed.

Lemma convert_event_origin (sections : list SectionRec)
    (events : list CalendarEvent) :
  convertScheduleToEvents sections = Ok events ->
  forall e, In e events ->
    exists section row es,
      In section sections /\ In row (schedule section)
      /\ createEventsFromSchedule row section = Ok es /\ In e es.
Proof.
  intros H e He. unfold convertScheduleToEvents in H.
  rewrite (forEach_collect _ _ (fun section acc r => convert_rows section acc r))
    in H.
  destruct H as [perSection [HF ->]]. simpl in He.
  destruct (Forall2_concat_In _ _ _ e HF He)
    as [section [evs [Hsec [[perRow [HF' ->]] He']]]].
  destruct (Forall2_concat_In _ _ _ e HF' He') as [row [es [Hrow [Hes He'']]]].
  exists section, row, es. tauto.
Qed.

Lemma dayNumbers_In (dayStr : string) (n : Z) :
  In n (dayNumbers dayStr) ->
  exists c, In c (list_ascii_of_string dayStr) /\ DAYS_MAP c = Some n.
Proof.
  induction dayStr as [| c r IH]; simpl; [contradiction |].
  destruct (DAYS_MAP c) as [m |] eqn:E.
  - intros [<- | H].
    + exists c. split; [left; reflexivity | exact E].
    + destruct (IH H) as [c' [Hc' E']]. exists c'. split; [right |]; assumption.
  - intros H. destruct (IH H) as [c' [Hc' E']].
    exists c'. split; [right |]; assumption.
Qed.

Lemma row_event_day (start end_ : option string) (row : Schedule)
    (section : SectionRec) (es : list CalendarEvent) (e : CalendarEvent) :
  createEvents_dated start end_ row section = Ok es -> In e es ->
  exists n, ev_daysOfWeek e = [n] /\ In n (dayNumbers (sch_days row))
            /\ ev_backgroundColor e
               = generateColor (sec_subject section) (sec_course_code section)
            /\ ev_borderColor e = ev_backgroundColor e.
Proof.
  intros H He. apply createEvents_dated_Ok in H.
  destruct H as [[_ ->] | [times [_ ->]]]; [contradiction |].
  apply in_map_iff in He. destruct He as [n [<- Hn]].
  exists n. simpl. tauto.
Qed.

Lemma generateHiddenDays_cases (sections : list SectionRec) :
  (hasSaturdayRow sections /\ generateHiddenDays sections = [0])
  \/ (~ hasSaturdayRow sections /\ generateHiddenDays sections = [0; 6]).
Proof.
  unfold generateHiddenDays, hasSaturdayRow.
  destruct (existsb _ sections) eqn:E.
  - left. split; [| reflexivity].
    apply existsb_exists in E. destruct E as [section [Hs E]].
    apply existsb_exists in E. destruct E as [row [Hr E]].
    exists section, row. tauto.
  - right. split; [| reflexivity].
    intros [section [row [Hs [Hr Hc]]]].
    assert (Ht : existsb (fun section =>
                existsb (fun schedule => includesChar "S" (sch_days schedule))
                        (schedule section)) sections = true).
    { apply existsb_exists. exists section. split; [exact Hs |].
      apply existsb_exists. exists row. tauto. }
    congruence.
Qed.

(** X20.  [generateHiddenDays] always hides Sunday (day 0) and hides
    Saturday (day 6) exactly when no row has an ['S'] in its day pattern;
    it never hides a day on which [convertScheduleToEvents] puts an event
    for the same sections. *)
Theorem hidden_days_hide_no_event (sections : list SectionRec) :
  In 0 (generateHiddenDays sections)
  /\ (In 6 (generateHiddenDays sections) <-> ~ hasSaturdayRow sections)
  /\ (forall d, In d (generateHiddenDays sections) -> d = 0 \/ d = 6)
  /\ forall events,
       convertScheduleToEvents sections = Ok events ->
       forall e d, In e events -> In d (ev_daysOfWeek e) ->
                   ~ In d (generateHiddenDays sections).
Proof.
  pose proof (generateHiddenDays_cases sections) as Hcases.
  split; [| split; [| split]].
  - destruct Hcases as [[_ ->] | [_ ->]]; left; reflexivity.
  - destruct Hcases as [[Hs ->] | [Hs ->]]; simpl.
    + split; [intros [H | []]; discriminate H | intros Hn; contradiction].
    + split; [intros _; exact Hs | intros _; right; left; reflexivity].
  - intros d. destruct Hcases as [[_ ->] | [_ ->]]; simpl; intuition.
  - intros events Hconv e d He Hd Hhid.
    destruct (convert_event_origin sections events Hconv e He)
      as [section [row [es [Hsec [Hrow [Hes He']]]]]].
    destruct (row_event_day _ _ row section es e Hes He')
      as [n [Hn [Hin _]]].
    rewrite Hn in Hd. destruct Hd as [<- | []].
    destruct (dayNumbers_In _ _ Hin) as [c [Hc Hmap]].
    pose proof (DAYS_MAP_range c n Hmap) as [Hrange _].
    destruct Hcases as [[_ Heq] | [Hns Heq]]; rewrite Heq in Hhid;
      simpl in Hhid.
    + destruct Hhid as [<- | []]. lia.
    + destruct Hhid as [<- | [<- | []]]; [lia |].
      apply Hns. exists section, row. split; [exact Hsec |].
      split; [exact Hrow |].
      apply DAYS_MAP_saturday in Hmap. subst c.
      unfold includesChar. apply existsb_exists.
      exists "S"%char. split; [exact Hc | reflexivity].
Qed.

Lemma hidden_days_hide_no_event_witness :
  generateHiddenDays [A1; S1] = [0]
  /\ generateHiddenDays [A1; E1] = [0; 6]
  /\ exists events,
       convertScheduleToEvents [A1; S1] = Ok events
       /\ map ev_daysOfWeek events = [[1]; [3]; [6]]
       /\ forall e d, In e events -> In d (ev_daysOfWeek e) ->
                      ~ In d (generateHiddenDays [A1; S1]).
Proof.
  split; [reflexivity |]. split; [reflexivity |].
  destruct (convertScheduleToEvents [A1; S1]) as [events |] eqn:E;
    [| discriminate E].
  exists events. split; [reflexivity |]. split.
  - vm_compute in E. injection E as <-. reflexivity.
  - exact (proj2 (proj2 (proj2 (hidden_days_hide_no_event [A1; S1])))
             events E).
Defined.

Lemma row_faces (row : Schedule) (section : SectionRec)
    (es : list CalendarEvent) :
  createEventsFromSchedule row section = Ok es ->
  map eventFace es = map (rowFace section row) (dayNumbers (sch_days row)).
Proof.
  intros H. apply createEvents_dated_Ok in H.
  destruct H as [[-> ->] | [times [_ ->]]]; [reflexivity |].
  rewrite map_map. reflexivity.
Qed.

Lemma Forall2_concat_map {A B C : Type} (R : A -> list B -> Prop)
    (f : B -> C) (g : A -> list C) (l : list A) (yss : list (list B)) :
  (forall x ys, In x l -> R x ys -> map f ys = g x) ->
  Forall2 R l yss ->
  map f (List.concat yss) = flat_map g l.
Proof.
  intros H HF. induction HF as [| x ys l yss Hx _ IH]; [reflexivity |].
  simpl. rewrite map_app, (H x ys (or_introl eq_refl) Hx).
  rewrite IH; [reflexivity |].
  intros x' ys' Hin. apply H. right; exact Hin.
Qed.

(** X21.  Every event carries the colour of the course of the section it
    is made from, as background and as border alike: read in order, the
    events show, section after section and row after row, one event for
    each day number of the row, each with [generateColor] of that
    section's subject and course code as both colours, that section's
    title line and that section's name. *)
Theorem events_coloured_by_course (sections : list SectionRec)
    (events : list CalendarEvent) :
  convertScheduleToEvents sections = Ok events ->
  map eventFace events
  = flat_map (fun section =>
                flat_map (fun row =>
                            map (rowFace section row)
                                (dayNumbers (sch_days row)))
                         (schedule section))
             sections
  /\ forall e, In e events -> ev_borderColor e = ev_backgroundColor e.
Proof.
  intros H. split.
  - unfold convertScheduleToEvents in H.
    rewrite (forEach_collect _ _ (fun section acc r => convert_rows section acc r))
      in H.
    destruct H as [perSection [HF ->]]. simpl.
    refine (Forall2_concat_map _ eventFace _ _ _ _ HF).
    intros section evs _ [perRow [HF' ->]].
    refine (Forall2_concat_map _ eventFace _ _ _ _ HF').
    intros row es _ Hrow. exact (row_faces row section es Hrow).
  - intros e He.
    destruct (convert_event_origin sections events H e He)
      as [section [row [es [Hsec [Hrow [Hes He']]]]]].
    destruct (row_event_day _ _ row section es e Hes He')
      as [n [_ [_ [_ Hbd]]]].
    exact Hbd.
Qed.

Lemma events_coloured_by_course_witness :
  exists events,
    convertScheduleToEvents [A1; B1] = Ok events
    /\ map ev_backgroundColor events
       = ["hsl(200, 50%, 50%)"; "hsl(200, 50%, 50%)"; "hsl(-158, 50%, 50%)"]
    /\ map eventFace events
       = [rowFace A1 lectureRow 1; rowFace A1 lectureRow 3;
          rowFace B1 (entry "Lecture" "M------" "0930-1030") 1].
Proof.
  destruct (convertScheduleToEvents [A1; B1]) as [events |] eqn:E;
    [| discriminate E].
  exists events. split; [reflexivity |]. split.
  - vm_compute in E. injection E as <-. reflexivity.
  - exact (proj1 (events_coloured_by_course [A1; B1] events E)).
Defined.

Lemma time_ok_includes (row : Schedule) :
  time_ok row = true -> includesChar "-" (sch_time row) = true.
Proof.
  unfold time_ok. intros H.
  destruct (includesChar "-" (sch_time row)) eqn:E; [reflexivity |].
  apply split_single in E. destruct E as [p Hp]. rewrite Hp in H.
  discriminate H.
Qed.

Lemma createEvents_total (row : Schedule) (section : SectionRec) :
  time_ok row = true ->
  exists es, createEventsFromSchedule row section = Ok es.
Proof.
  intros H. apply time_ok_includes in H.
  unfold createEventsFromSchedule. rewrite createEvents_dated_closed.
  destruct (dayNumbers (sch_days row)); [eexists; reflexivity |].
  unfold eventTimes.
  destruct (event_is_one_day _ _); [eexists; reflexivity |].
  destruct (split "-" (sch_time row)) as [| p [| q rest]] eqn:E.
  - exfalso. exact (split_nonempty _ _ E).
  - assert (Hf : includesChar "-" (sch_time row) = false)
      by (apply split_single; exists p; exact E).
    congruence.
  - eexists; reflexivity.
Qed.

Lemma convert_total (sections : list SectionRec) :
  forallb section_ok sections = true ->
  exists events, convertScheduleToEvents sections = Ok events.
Proof.
  intros H. rewrite forallb_forall in H. unfold convertScheduleToEvents.
  apply forEach_total. intros section acc Hsec.
  apply forEach_total. intros row acc' Hrow.
  specialize (H section Hsec). unfold section_ok in H.
  rewrite forallb_forall in H.
  destruct (createEvents_total row section (H row Hrow)) as [es Hes].
  rewrite Hes. eexists; reflexivity.
Qed.

(** X22.  The generator and the calendar compose: when every time string
    of the courses has its ['-'], [generateTimetables] returns, and
    [convertScheduleToEvents] returns for each timetable of the result. *)
Theorem timetables_convert (courses : list Course) (L : Z) :
  courses_ok courses = true ->
  exists timetables,
    generateTimetables courses L = Ok timetables
    /\ forall t, In t timetables ->
                 exists events, convertScheduleToEvents t = Ok events.
Proof.
  intros Hok. destruct (generateTimetables_total courses L Hok) as [tts Htts].
  exists tts. split; [exact Htts |].
  intros t Hin. apply convert_total. apply forallb_forall. intros s Hs.
  pose proof (returned_picks courses L tts Htts t Hin) as HF.
  unfold courses_ok in Hok. rewrite forallb_forall in Hok.
  clear -HF Hs Hok.
  induction HF as [| course s' cs ts Hs' _ IH]; [contradiction |].
  destruct Hs as [<- | Hs].
  - specialize (Hok course (or_introl eq_refl)).
    rewrite forallb_forall in Hok. exact (Hok s' Hs').
  - apply IH; [| exact Hs]. intros c Hc. apply Hok. right; exact Hc.
Qed.

Lemma timetables_convert_witness :
  courses_ok [courseA; courseE] = true
  /\ generateTimetables [courseA; courseE] 10 = Ok [[A2; E1]]
  /\ exists events, convertScheduleToEvents [A2; E1] = Ok events.
Proof.
  split; [reflexivity |]. split; [reflexivity |].
  destruct (timetables_convert [courseA; courseE] 10 eq_refl)
    as [tts [Hgen Hall]].
  apply Hall. vm_compute in Hgen. injection Hgen as <-. left; reflexivity.
Defined.

(** ** [generateColor] *)

Lemma toInt32_range (z : Z) : - 2 ^ 31 <= toInt32 z < 2 ^ 31.
Proof.
  unfold toInt32.
  pose proof (Z.mod_pos_bound (z + 2 ^ 31) (2 ^ 32) ltac:(lia)). lia.
Qed.

Lemma toInt32_congr (z : Z) : exists k, toInt32 z = z + k * 2 ^ 32.
Proof.
  unfold toInt32. exists (- ((z + 2 ^ 31) / 2 ^ 32)).
  pose proof (Z.div_mod (z + 2 ^ 31) (2 ^ 32) ltac:(lia)) as H.
  change (2 ^ 32) with 4294967296 in *. change (2 ^ 31) with 2147483648 in *.
  lia.
Qed.

Lemma shiftLeft_5_congr (h : Z) : exists k, shiftLeft h 5 = 32 * h + k * 2 ^ 32.
Proof.
  unfold shiftLeft. rewrite Z.shiftl_mul_pow2 by lia.
  destruct (toInt32_congr h) as [k1 H1].
  destruct (toInt32_congr (toInt32 h * 2 ^ 5)) as [k2 H2].
  exists (32 * k1 + k2). rewrite H2, H1. change (2 ^ 5) with 32.
  change (2 ^ 32) with 4294967296. lia.
Qed.

Lemma hashLoop_congr (input : string) :
  forall h1 h2, (exists k, h1 = h2 + k * 2 ^ 32) ->
                exists k, hashLoop input h1 = horner31 input h2 + k * 2 ^ 32.
Proof.
  induction input as [| c r IH]; intros h1 h2 Hk; cbn [hashLoop horner31];
    [exact Hk |].
  apply IH. destruct Hk as [k ->].
  destruct (shiftLeft_5_congr (h2 + k * 2 ^ 32)) as [k' ->].
  exists (31 * k + k'). change (2 ^ 32) with 4294967296. lia.
Qed.

Lemma hashLoop_bound (input : string) :
  forall h, Z.abs (hashLoop input h)
            <= Z.abs h + Z.of_nat (String.length input) * (2 ^ 31 + 255).
Proof.
  induction input as [| c r IH]; intros h; [simpl; lia |].
  cbn [hashLoop String.length].
  specialize (IH (Z.of_nat (nat_of_ascii c) + (shiftLeft h 5 - h))).
  assert (Hc : 0 <= Z.of_nat (nat_of_ascii c) <= 255).
  { assert (nat_of_ascii c < 256)%nat by apply nat_ascii_bounded. lia. }
  assert (Hw : - 2 ^ 31 <= shiftLeft h 5 < 2 ^ 31)
    by (unfold shiftLeft; apply toInt32_range).
  rewrite Nat2Z.inj_succ. lia.
Qed.

(** X23.  The hue that [generateColor] prints lies strictly between -360
    and 360, and it can be negative: the remainder keeps the sign of the
    hash.  The hash itself stays within [n * (2^31 + 255)] in absolute
    value for an [n]-character input, far inside the range where number
    arithmetic is exact. *)
Theorem hue_range (subject courseCode : string) :
  - 360 < hueOf subject courseCode < 360
  /\ Z.abs (hashLoop (subject ++ courseCode)%string 0)
     <= Z.of_nat (String.length (subject ++ courseCode)%string) * (2 ^ 31 + 255)
  /\ generateColor subject courseCode
     = ("hsl(" ++ numberToString (hueOf subject courseCode)
        ++ ", 50%, 50%)")%string
  /\ exists s c, hueOf s c < 0.
Proof.
  split; [| split; [| split]].
  - unfold hueOf.
    pose proof (Z.rem_bound_abs (hashLoop (subject ++ courseCode)%string 0) 360
                  ltac:(lia)) as H.
    change (Z.abs 360) with 360 in H. lia.
  - pose proof (hashLoop_bound (subject ++ courseCode)%string 0) as H.
    simpl Z.abs in H at 2. lia.
  - reflexivity.
  - exists "MATH", "1171". vm_compute. reflexivity.
Qed.

(** X24.  The hash of [generateColor] is, modulo 2^32, the base-31
    polynomial of the input's character codes (the first character
    weighing most): only the shifted term is wrapped to 32 bits. *)
Theorem hash_is_base31_polynomial (input : string) :
  (hashLoop input 0) mod 2 ^ 32 = (horner31 input 0) mod 2 ^ 32.
Proof.
  destruct (hashLoop_congr input 0 0 (ex_intro _ 0 eq_refl)) as [k ->].
  apply Z.mod_add. lia.
Qed.

(** * More on [timeToMinutes] *)






Lemma timeToMinutes_two_pieces (p q : string) :
  includesChar "-" p = false -> includesChar "-" q = false ->
  timeToMinutes (p ++ String "-" q)%string
  = Ok (mkTimeRange (minutesOf p) (minutesOf q)).
Proof.
  intros Hp Hq. unfold timeToMinutes.
  rewrite (split_app_sep "-" p q Hp), (split_no_sep "-" q Hq). reflexivity.
Qed.





(** X26.  Only the first two pieces of the time string are read: what
    follows a second ['-'] does not change the result. *)
Theorem timeToMinutes_ignores_tail (p q tail : string) :
  includesChar "-" p = false -> includesChar "-" q = false ->
  timeToMinutes (p ++ String "-" (q ++ String "-" tail))%string
  = timeToMinutes (p ++ String "-" q)%string.
Proof.
  intros Hp Hq. rewrite (timeToMinutes_two_pieces p q Hp Hq).
  unfold timeToMinutes.
  rewrite (split_app_sep "-" p _ Hp), (split_app_sep "-" q _ Hq).
  reflexivity.
Qed.

Lemma timeToMinutes_ignores_tail_witness :
  timeToMinutes "0900-1000-1100" = timeToMinutes "0900-1000".
Proof.
  exact (timeToMinutes_ignores_tail "0900" "1000" "1100" eq_refl eq_refl).
Defined.

(** * Completeness of the search *)

Lemma picks_in_cartesian (courses : list Course) (t : Timetable) :
  Forall2 (fun course s => In s (sections course)) courses t ->
  In t (cartesian courses).
Proof.
  intros HF. induction HF as [| course s cs ts Hs _ IH]; simpl.
  - left; reflexivity.
  - apply in_flat_map. exists s. split; [exact Hs |].
    apply in_map. exact IH.
Qed.

Lemma pairs_conflictFree (t : Timetable) :
  (forall i j a b, i <> j ->
     nth_error t i = Some a -> nth_error t j = Some b ->
     sectionConflicts a [b] = Ok false) ->
  conflictFree t = true.
Proof.
  induction t as [| a r IH]; intros H; [reflexivity |].
  simpl. apply andb_true_iff. split.
  - apply forallb_forall. intros b Hb.
    apply In_nth_error in Hb. destruct Hb as [j Hj].
    unfold noConflict.
    rewrite (H 0%nat (S j) a b ltac:(discriminate) eq_refl Hj). reflexivity.
  - apply IH. intros i j x y Hij Hi Hj.
    apply (H (S i) (S j) x y); [lia | exact Hi | exact Hj].
Qed.

(** X27.  Nothing valid is missed: when the limit does not bind and the
    time strings are well formed, every choice of one candidate section
    per course, in course order, whose sections do not conflict pairwise
    is among the timetables returned. *)
Theorem every_valid_choice_returned (courses : list Course) (L : Z)
    (t : Timetable) :
  courses_ok courses = true ->
  Z.of_nat (List.length (bruteForce courses)) <= L ->
  Forall2 (fun course s => In s (sections course)) courses t ->
  (forall i j a b, i <> j ->
     nth_error t i = Some a -> nth_error t j = Some b ->
     sectionConflicts a [b] = Ok false) ->
  exists timetables,
    generateTimetables courses L = Ok timetables /\ In t timetables.
Proof.
  intros Hok HL Hpick Hfree.
  exists (firstn (Z.to_nat L) (bruteForce courses)).
  split; [exact (generateTimetables_spec courses L Hok) |].
  rewrite firstn_all2 by lia. unfold bruteForce. apply filter_In.
  split; [exact (picks_in_cartesian courses t Hpick) |].
  exact (pairs_conflictFree t Hfree).
Qed.

Lemma every_valid_choice_returned_witness :
  exists timetables,
    generateTimetables [courseA; courseC] 4 = Ok timetables
    /\ In [A2; C2] timetables.
Proof.
  apply (every_valid_choice_returned [courseA; courseC] 4 [A2; C2] eq_refl).
  - vm_compute. discriminate.
  - constructor; [right; left; reflexivity |].
    constructor; [right; left; reflexivity | constructor].
  - intros i j a b Hij Hi Hj.
    destruct i as [| [| i]], j as [| [| j]]; simpl in Hi, Hj;
      try congruence;
      try (destruct i; discriminate Hi); try (destruct j; discriminate Hj);
      injection Hi as <-; injection Hj as <-; reflexivity.
Defined.

(** * A course without sections *)








